(** * Book shop server: payment-amount verification and order finalisation

    A shallow embedding of the payment core of [server.js]:
    - the product master cache [BOOKS_MAP_CACHE] and [refreshBooksCache];
    - the amount validator [validatePaymentAmount];
    - the handler of [POST /api/payments/confirm];
    - the order lookup of [GET /api/orders];

    and of what stands around it: the middlewares [authenticateToken] and
    [requireAdmin], [validatePasswordStrength], the handlers of
    [POST /api/register] and [POST /api/login], and the administration of
    order statuses and of products.

    JavaScript numbers are IEEE 754 binary64 values, so they are modelled by
    the primitive [float] type, whose operations are the same binary64
    operations.  Request bodies are JSON documents; they are modelled by the
    type [value] below, extended with [undefined] for absent properties. *)

From Stdlib Require Import ZArith Floats.
From stdpp Require Import gmap strings list sorting.

Set Warnings "-register-all".

(** ** Numbers *)

Module Number.

(** [!x] on a number: [+0], [-0] and [NaN] are the falsy numbers. *)
Definition falsy (x : float) : bool := is_zero x || is_nan x.

(** The integer a number denotes, when it denotes one.  Infinities, [NaN]
    and numbers with a fractional part denote none. *)
Definition SF_to_Z (f : spec_float) : option Z :=
  match f with
  | S754_zero _ => Some 0%Z
  | S754_finite s m e =>
      let z := if s then Zneg m else Zpos m in
      if (0 <=? e)%Z then Some (z * 2 ^ e)%Z
      else if (Zpos m mod 2 ^ (- e) =? 0)%Z then Some (z / 2 ^ (- e))%Z
      else None
  | S754_infinity _ | S754_nan => None
  end.

Definition to_Z (x : float) : option Z := SF_to_Z (Prim2SF x).

End Number.

(** ** JavaScript values *)

Module JS.

(** A parsed JSON document, or [undefined] (the value of an absent
    property).  An object is the finite map of its own properties. *)
Inductive value : Type :=
| VUndefined
| VNull
| VBool (b : bool)
| VNum (x : float)
| VStr (s : string)
| VArr (elements : list value)
| VObj (props : gmap string value).

(** The outcome of code that may raise an exception. *)
Inductive completion (A : Type) : Type :=
| Normal (a : A)
| Throw.
Arguments Normal {A} a.
Arguments Throw {A}.

Definition nullish (v : value) : bool :=
  match v with
  | VUndefined | VNull => true
  | _ => false
  end.

(** [!!v]. *)
Definition truthy (v : value) : bool :=
  match v with
  | VUndefined | VNull => false
  | VBool b => b
  | VNum x => negb (Number.falsy x)
  | VStr s => negb (String.eqb s "")
  | VArr _ | VObj _ => true
  end.

(** [o.k] for a value [o] that is not nullish, at a property name that no
    prototype defines (the handlers read [bookId], [quantity], [price],
    [code], [message], [orderId], ...): an own property of an object,
    [undefined] on anything else. *)
Definition prop (o : value) (k : string) : value :=
  match o with
  | VObj props => default VUndefined (props !! k)
  | _ => VUndefined
  end.

(** [Array.isArray(v)] together with the elements. *)
Definition as_array (v : value) : option (list value) :=
  match v with
  | VArr elements => Some elements
  | _ => None
  end.

(** [a === b] when at least one operand is a number, which is every use
    below: true exactly when both are numbers and equal as binary64
    values ([NaN] differs from itself, [+0] equals [-0]). *)
Definition strict_eq (a b : value) : bool :=
  match a, b with
  | VNum x, VNum y => (x =? y)%float
  | _, _ => false
  end.

(** [JSON.stringify(v)], given as the document that the text denotes to
    whoever parses it: a number that is not finite is written [null], [-0]
    is written [0], an [undefined] element of an array is written [null] and
    an [undefined] property is left out.  No parsed document has a callable
    [toJSON].  [JSON.stringify(undefined)] is [undefined]. *)
Fixpoint JSON_stringify (v : value) : value :=
  match v with
  | VNum x =>
      if is_nan x || is_infinity x then VNull
      else if is_zero x then VNum 0
      else VNum x
  | VArr elements =>
      VArr ((fun e => match e with
                      | VUndefined => VNull
                      | _ => JSON_stringify e
                      end) <$> elements)
  | VObj props =>
      VObj (omap (fun e => match e with
                           | VUndefined => None
                           | _ => Some (JSON_stringify e)
                           end) props)
  | _ => v
  end.

Section Coercion.

(** [StringToNumber] on a string, and on the text [Array.prototype.join]
    makes of an array.  That part of the runtime is taken as a
    parameter. *)
Variable runtime_ToNumber : value -> float.

(** Whether [Array.prototype.join] completes on the elements of an array.
    It raises a TypeError when an element cannot be converted to a string,
    and a RangeError when arrays are nested deeper than the call stack
    allows.  Taken from the runtime as well. *)
Variable runtime_join : list value -> bool.

(** Whether [ToPrimitive(v)] completes, with either hint.  The properties
    of a parsed object are no functions: an own [toString] hides
    [Object.prototype.toString], [valueOf] gives no primitive whether own
    or inherited, and the conversion ends in a TypeError.  Without an own
    [toString] an object converts to the text ['[object Object]'].  An array
    converts through [join]. *)
Definition convertible (v : value) : bool :=
  match v with
  | VObj props => bool_decide (props !! "toString" = None)
  | VArr elements => runtime_join elements
  | _ => true
  end.

Definition ToNumber (v : value) : completion float :=
  match v with
  | VUndefined => Normal nan
  | VNull => Normal 0%float
  | VBool b => Normal (if b then 1%float else 0%float)
  | VNum x => Normal x
  | VStr _ => Normal (runtime_ToNumber v)
  | VArr _ => if convertible v then Normal (runtime_ToNumber v) else Throw
  | VObj _ => if convertible v then Normal nan else Throw
  end.

(** [a <= b] for a number [b]: [a] is converted to a number and the
    binary64 comparison applies, which is false when either side is [NaN]. *)
Definition le (a : value) (b : float) : completion bool :=
  match ToNumber a with
  | Normal x => Normal (x <=? b)%float
  | Throw => Throw
  end.

(** [a * b] for a number [a]. *)
Definition mul (a : float) (b : value) : completion float :=
  match ToNumber b with
  | Normal y => Normal (a * y)%float
  | Throw => Throw
  end.

End Coercion.

End JS.

Import JS.

(** ** The product master cache *)

(** A row of the [books] table as the cache holds it.  [id SERIAL PRIMARY
    KEY] draws identifiers from a sequence that starts at 1; [price INTEGER]
    reaches JavaScript as a number.  The other columns play no part in the
    payment core. *)
Record book : Type := {
  book_id : positive;
  title : string;
  price : float;
  is_active : bool
}.

(** [new Map(rows.map(b => [b.id, b]))]: a later row replaces an earlier one
    with the same key. *)
Definition Map_of_rows (rows : list book) : gmap positive book :=
  foldl (fun m b => <[book_id b := b]> m) ∅ rows.

(** [map.get(key)] on a map keyed by row identifiers: a key matches when it
    is the number that denotes the identifier. *)
Definition Map_get (m : gmap positive book) (key : value) : option book :=
  match key with
  | VNum x =>
      match Number.to_Z x with
      | Some (Zpos p) => m !! p
      | _ => None
      end
  | _ => None
  end.

(** The order of [ORDER BY id]. *)
Definition by_id (a b : book) : Prop := (book_id a <= book_id b)%positive.

#[local] Instance by_id_dec a b : Decision (by_id a b).
Proof. unfold by_id. apply _. Defined.

(** [refreshBooksCache] (server.js, lines 353-358): the rows of [SELECT *
    FROM books WHERE is_active = true ORDER BY id], kept as the list
    [BOOKS_CACHE] and as the map [BOOKS_MAP_CACHE]. *)
Definition refreshBooksCache (books : list book)
  : list book * gmap positive book :=
  let rows := merge_sort by_id (filter (fun b => is_active b = true) books) in
  (rows, Map_of_rows rows).

(** ** The amount validator

    [function validatePaymentAmount(items, expectedTotal)], server.js, lines
    600-654. *)

(** The [error] text of a rejection, by the template that builds it. *)
Inductive reason : Type :=
| NoItems
    (* '주문 상품이 없습니다' *)
| InvalidItem
    (* '잘못된 주문 상품 정보입니다' *)
| NoSuchProduct (bookId : value)
    (* `존재하지 않는 상품입니다 (ID: ${bookId})` *)
| PriceMismatch (title : string) (serverPrice : float) (clientPrice : value)
    (* `"${masterBook.title}"의 가격이 일치하지 않습니다 (서버: ..., 클라이언트: ...)` *)
| TotalMismatch (calculatedTotal : float) (expectedTotal : value).
    (* `결제 금액이 일치하지 않습니다 (계산된 금액: ..., 요청 금액: ...)` *)

(** The object [validatePaymentAmount] returns; a property the object
    literal does not list is [None]. *)
Record validation : Type := {
  valid : bool;
  error : option reason;
  calculatedTotal : option float
}.

(** How one pass through the body of the [for] loop ends. *)
Inductive step : Type :=
| Return (r : validation)
| Continue (calculatedSubtotal : float).

(** [calculatedSubtotal >= 30000 ? 0 : 3000]. *)
Definition shippingFee (calculatedSubtotal : float) : float :=
  if (30000 <=? calculatedSubtotal)%float then 0%float else 3000%float.

Section Validator.

Variable runtime_ToNumber : value -> float.
Variable runtime_join : list value -> bool.
Variable BOOKS_MAP_CACHE : gmap positive book.

(** The loop body (lines 610-636).  [const { bookId, quantity, price:
    clientPrice } = item] raises a TypeError on a nullish [item].  Then:
    [if (!bookId || !quantity || quantity <= 0) return ...],
    [masterBook = BOOKS_MAP_CACHE.get(bookId)], [if (!masterBook) return ...],
    [if (clientPrice !== serverPrice) return ...],
    [calculatedSubtotal += serverPrice * quantity].  The comparison
    [quantity <= 0] and the product convert [quantity] to a number, and the
    templates of the two messages convert [bookId] and [clientPrice] to a
    string: each raises a TypeError on a value that cannot be converted. *)
Definition check_item (item : value) (calculatedSubtotal : float)
  : completion step :=
  if nullish item then Throw
  else
    let bookId := prop item "bookId" in
    let quantity := prop item "quantity" in
    let clientPrice := prop item "price" in
    if negb (truthy bookId) || negb (truthy quantity)
    then Normal (Return {| valid := false; error := Some InvalidItem;
                           calculatedTotal := None |})
    else
      match le runtime_ToNumber runtime_join quantity 0 with
      | Throw => Throw
      | Normal true =>
          Normal (Return {| valid := false; error := Some InvalidItem;
                            calculatedTotal := None |})
      | Normal false =>
          match Map_get BOOKS_MAP_CACHE bookId with
          | None =>
              if negb (convertible runtime_join bookId) then Throw
              else Normal (Return {| valid := false;
                                     error := Some (NoSuchProduct bookId);
                                     calculatedTotal := None |})
          | Some masterBook =>
              let serverPrice := price masterBook in
              if negb (strict_eq clientPrice (VNum serverPrice))
              then
                if negb (convertible runtime_join clientPrice) then Throw
                else Normal (Return {| valid := false;
                                       error := Some (PriceMismatch
                                                        (title masterBook)
                                                        serverPrice
                                                        clientPrice);
                                       calculatedTotal := None |})
              else
                match mul runtime_ToNumber runtime_join serverPrice
                        quantity with
                | Throw => Throw
                | Normal product =>
                    Normal (Continue (calculatedSubtotal + product))
                end
          end
      end.

(** [for (const item of items) { ... }] from a given subtotal. *)
Fixpoint for_items (items : list value) (calculatedSubtotal : float)
  : completion step :=
  match items with
  | [] => Normal (Continue calculatedSubtotal)
  | item :: rest =>
      match check_item item calculatedSubtotal with
      | Normal (Continue subtotal) => for_items rest subtotal
      | stop => stop
      end
  end.

(** The function: [if (!Array.isArray(items) || items.length === 0) return
    ...], the loop from [calculatedSubtotal = 0], the fee, and
    [if (calculatedTotal !== expectedTotal) return ...], whose message
    converts [expectedTotal] to a string.  The local [calculatedTotal] is
    [total] here. *)
Definition validatePaymentAmount (items expectedTotal : value)
  : completion validation :=
  match as_array items with
  | None | Some [] =>
      Normal {| valid := false; error := Some NoItems;
                calculatedTotal := None |}
  | Some lines =>
      match for_items lines 0 with
      | Throw => Throw
      | Normal (Return r) => Normal r
      | Normal (Continue calculatedSubtotal) =>
          let total := (calculatedSubtotal + shippingFee calculatedSubtotal)%float in
          if negb (strict_eq (VNum total) expectedTotal)
          then
            if negb (convertible runtime_join expectedTotal) then Throw
            else Normal {| valid := false;
                           error := Some (TotalMismatch total expectedTotal);
                           calculatedTotal := Some total |}
          else Normal {| valid := true; error := None;
                         calculatedTotal := Some total |}
      end
  end.

End Validator.

(** ** The order store *)

(** A row of the [orders] table (the [CREATE TABLE] of [initDB]).  [id] and
    [created_at] are filled in by the database ([SERIAL], [DEFAULT NOW()]);
    [user_id] is the authenticated user; the other columns hold what the
    database has made of the values bound to the placeholders of the
    [INSERT], as a query reads it back: a string for [VARCHAR], a number for
    [INTEGER], a document for [JSONB], and [null] for [NULL]. *)
Record order : Type := {
  id : positive;
  user_id : positive;
  order_id : value;
  payment_key : value;
  order_name : value;
  total_amount : value;
  status : value;
  method : value;
  items : value;
  payment_response : value;
  created_at : Z;
  approved_at : Z
}.

(** What the database answers to the [INSERT]: it raises (a constraint or a
    column type refuses the row, the connection is lost), or it stores the
    row under a fresh [id] at the time [NOW()]. *)
Inductive insert_result : Type :=
| InsertFails
| Inserted (id : positive) (now : Z).

(** A number bound to a placeholder that is compared with an [INTEGER]
    column: the driver sends its decimal text, which the database reads as
    a 32-bit integer or refuses ([None]), as it does for [NaN], fractions and
    numbers out of range. *)
Definition pg_integer (x : float) : option Z :=
  match Number.to_Z x with
  | Some z =>
      if (-2147483648 <=? z)%Z && (z <=? 2147483647)%Z then Some z else None
  | None => None
  end.

(** What the columns make of a value bound to a placeholder.  The driver
    sends [null] and [undefined] as [NULL] and anything else as text; the
    column reads the text as its type or refuses it ([None]). *)
Section Columns.

(** The text a [VARCHAR] column keeps of a value that is not nullish;
    [None] when it refuses the text. *)
Variable pg_text : value -> option string.

(** The number an [INTEGER] column reads from the text of a string, a
    boolean, an array or an object; [None] when it refuses the text. *)
Variable pg_integer_text : value -> option float.

Definition varchar (v : value) : option value :=
  if nullish v then Some VNull else VStr <$> pg_text v.

(** The text of a number is its decimal expansion, that of [-0] being
    ['0']. *)
Definition integer (v : value) : option value :=
  match v with
  | VUndefined | VNull => Some VNull
  | VNum x =>
      match pg_integer x with
      | Some _ => Some (VNum (if is_zero x then 0 else x))
      | None => None
      end
  | _ => VNum <$> pg_integer_text v
  end.

(** A [JSONB] column bound to the text [JSON.stringify(v)] holds the
    document of that text; [JSON.stringify(undefined)] is [undefined], which
    is sent as [NULL]. *)
Definition jsonb (v : value) : option value :=
  match v with
  | VUndefined => Some VNull
  | _ => Some (JSON_stringify v)
  end.

(** [NOT NULL]. *)
Definition not_null (column : option value) : option value :=
  match column with
  | Some VNull => None
  | _ => column
  end.

(** The row of [INSERT INTO orders (user_id, order_id, payment_key,
    order_name, total_amount, status, method, items, payment_response,
    approved_at) VALUES ($1, ..., $9, NOW())] with the values the handler
    binds, when every column takes its value.  The text bound to [items]
    is that of an array, which meets the [NOT NULL] of the column. *)
Definition orders_row (user : positive) (items tossResult : value)
    (new_id : positive) (now : Z) : option order :=
  order_id' ← not_null (varchar (prop tossResult "orderId"));
  payment_key' ← varchar (prop tossResult "paymentKey");
  order_name' ← not_null (varchar (prop tossResult "orderName"));
  total_amount' ← not_null (integer (prop tossResult "totalAmount"));
  status' ← varchar (prop tossResult "status");
  method' ← varchar (prop tossResult "method");
  items' ← jsonb (if truthy items then items else VArr []);
  payment_response' ← jsonb tossResult;
  Some {| id := new_id;
          user_id := user;
          order_id := order_id';
          payment_key := payment_key';
          order_name := order_name';
          total_amount := total_amount';
          status := status';
          method := method';
          items := items';
          payment_response := payment_response';
          created_at := now;
          approved_at := now |}.

End Columns.

(** What [fetch] and [tossResponse.json()] give: the request fails, or the
    provider answers with an HTTP status and a body that parses as JSON
    ([Some]) or does not ([None]). *)
Inductive fetch_result : Type :=
| FetchFails
| Response (status : Z) (body : option value).

(** [tossResponse.ok]. *)
Definition ok (status : Z) : bool := (200 <=? status)%Z && (status <=? 299)%Z.

(** ** Responses *)

Inductive message : Type :=
| MissingFields   (* 'paymentKey, orderId, amount는 필수입니다' *)
| MissingItems    (* '주문 상품 정보가 필요합니다' *)
| ServerError.    (* '서버 오류가 발생했습니다' *)

(** The columns [GET /api/orders] selects. *)
Record order_view : Type := {
  view_id : positive;
  view_order_id : value;
  view_order_name : value;
  view_total_amount : value;
  view_status : value;
  view_method : value;
  view_items : value;
  view_created_at : Z;
  view_approved_at : Z
}.

(** The objects the two handlers hand to [res.json], by shape. *)
Inductive payload : Type :=
| Error (error : message)
    (* { error } *)
| ValidationError (detail : option reason)
    (* { error: '결제 금액이 올바르지 않습니다', detail } *)
| ProviderError (code message : value)
    (* { error: '결제 승인에 실패했습니다', code, message } *)
| Completed (orderId totalAmount method status approvedAt : value)
    (* { message: '결제가 완료되었습니다', orderId, totalAmount, ... } *)
| Orders (orders : list order_view).
    (* { orders } *)

Record response : Type := {
  http_status : Z;
  body : payload
}.

Definition server_error : response :=
  {| http_status := 500; body := Error ServerError |}.

(** ** POST /api/payments/confirm

    server.js, lines 814-920. *)

(** The confirm call: [fetch] with the body [JSON.stringify({ paymentKey,
    orderId, amount })], answered by the provider [toss_confirm], a function
    of the three fields of the document it receives. *)
Definition fetch_confirm
    (toss_confirm : value -> value -> value -> fetch_result)
    (paymentKey orderId amount : value) : fetch_result :=
  toss_confirm (JSON_stringify paymentKey) (JSON_stringify orderId)
    (JSON_stringify amount).

Section Confirm.

Variable runtime_ToNumber : value -> float.
Variable runtime_join : list value -> bool.
Variable BOOKS_MAP_CACHE : gmap positive book.
Variable pg_text : value -> option string.
Variable pg_integer_text : value -> option float.

(** The provider. *)
Variable toss_confirm : value -> value -> value -> fetch_result.

(** The handler after [authenticateToken], as a transition on the [orders]
    table: [user] is [req.user.id], [req_body] is [req.body], [pg] is the
    database's answer should the [INSERT] be issued with a row that every
    column takes.  Every exception ends in the [catch] clause, which
    answers 500.  Log output is left out. *)
Definition payments_confirm (user : positive) (req_body : value)
    (pg : insert_result) (orders : list order) : list order * response :=
  if nullish req_body then (orders, server_error)
  else
    let paymentKey := prop req_body "paymentKey" in
    let orderId := prop req_body "orderId" in
    let amount := prop req_body "amount" in
    let items := prop req_body "items" in
    if negb (truthy paymentKey) || negb (truthy orderId)
       || negb (truthy amount)
    then (orders, {| http_status := 400; body := Error MissingFields |})
    else if negb (truthy items)
            || match as_array items with
               | Some (_ :: _) => false
               | _ => true
               end
    then (orders, {| http_status := 400; body := Error MissingItems |})
    else
      match validatePaymentAmount runtime_ToNumber runtime_join
              BOOKS_MAP_CACHE items amount with
      | Throw => (orders, server_error)
      | Normal validation =>
          if negb (valid validation)
          then (orders, {| http_status := 400;
                           body := ValidationError (error validation) |})
          else
            match fetch_confirm toss_confirm paymentKey orderId amount with
            | FetchFails | Response _ None => (orders, server_error)
            | Response status (Some tossResult) =>
                if nullish tossResult then (orders, server_error)
                else if negb (ok status)
                then (orders,
                      {| http_status := status;
                         body := ProviderError (prop tossResult "code")
                                   (prop tossResult "message") |})
                else
                  match pg with
                  | InsertFails => (orders, server_error)
                  | Inserted new_id now =>
                      match orders_row pg_text pg_integer_text user items
                              tossResult new_id now with
                      | None => (orders, server_error)
                      | Some row =>
                          (orders ++ [row],
                           {| http_status := 200;
                              body := Completed (prop tossResult "orderId")
                                        (prop tossResult "totalAmount")
                                        (prop tossResult "method")
                                        (prop tossResult "status")
                                        (prop tossResult "approvedAt") |})
                      end
                  end
            end
      end.

End Confirm.

(** ** GET /api/orders

    server.js, lines 927-944. *)

Definition newest_first (a b : order) : Prop := (created_at b <= created_at a)%Z.

#[local] Instance newest_first_dec a b : Decision (newest_first a b).
Proof. unfold newest_first. apply _. Defined.

Definition select_columns (o : order) : order_view :=
  {| view_id := id o;
     view_order_id := order_id o;
     view_order_name := order_name o;
     view_total_amount := total_amount o;
     view_status := status o;
     view_method := method o;
     view_items := items o;
     view_created_at := created_at o;
     view_approved_at := approved_at o |}.

(** The rows the query ranges over, sorts and cuts:
    [FROM orders WHERE user_id = $1 ORDER BY created_at DESC LIMIT 50]. *)
Definition orders_of (user : positive) (orders : list order) : list order :=
  take 50 (merge_sort newest_first
             (filter (fun o => user_id o = user) orders)).

(** The handler: [query_ok] tells whether the database answers the query. *)
Definition get_orders (user : positive) (query_ok : bool)
    (orders : list order) : response :=
  if query_ok
  then {| http_status := 200;
          body := Orders (select_columns <$> orders_of user orders) |}
  else server_error.

(** ** Authentication middleware

    [authenticateToken] and [requireAdmin], server.js, lines 552-585. *)

(** The space character, code 32. *)
Definition space : Ascii.ascii :=
  Ascii.Ascii false false false false false true false false.

(** [s.split(' ')]: the fields between single spaces; there is always at
    least one field. *)
Fixpoint split_space (s : string) : list string :=
  match s with
  | EmptyString => [EmptyString]
  | String c rest =>
      if Ascii.eqb c space then EmptyString :: split_space rest
      else match split_space rest with
           | field :: fields => String c field :: fields
           | [] => [String c EmptyString]
           end
  end.

Inductive auth_error : Type :=
| LoginRequired    (* 401 '로그인이 필요합니다' *)
| InvalidToken     (* 401 '유효하지 않은 토큰입니다' *)
| AdminRequired.   (* 403 '관리자 권한이 필요합니다' *)

(** What a middleware does with a request: it answers with an error, it
    calls [next()] with [req.user] set ([Pass]), or it raises an
    exception. *)
Inductive gate : Type :=
| Deny (http : Z) (why : auth_error)
| Pass (user : value)
| Crash.

Section Auth.

(** [jwt.verify(token, process.env.JWT_SECRET, callback)]: an error
    ([None]) or the decoded payload. *)
Variable jwt_verify : string -> option value.

(** [authorization] is [req.headers['authorization']], [None] when the
    request has no such header.  [authHeader && authHeader.split(' ')[1]]
    is falsy for an empty header, for a header without a space and for an
    empty second field. *)
Definition authenticateToken (authorization : option string) : gate :=
  match authorization with
  | None => Deny 401 LoginRequired
  | Some authHeader =>
      if String.eqb authHeader "" then Deny 401 LoginRequired
      else
        match split_space authHeader !! 1%nat with
        | None => Deny 401 LoginRequired
        | Some token =>
            if String.eqb token "" then Deny 401 LoginRequired
            else
              match jwt_verify token with
              | None => Deny 401 InvalidToken
              | Some decoded => Pass decoded
              end
        end
  end.

(** [req.user.role !== 'admin']; reading [role] off a nullish [req.user]
    raises a TypeError. *)
Definition requireAdmin (user : value) : gate :=
  if nullish user then Crash
  else
    match prop user "role" with
    | VStr role => if String.eqb role "admin" then Pass user
                   else Deny 403 AdminRequired
    | _ => Deny 403 AdminRequired
    end.

(** The two middlewares in front of every [/api/admin/...] route. *)
Definition admin_gate (authorization : option string) : gate :=
  match authenticateToken authorization with
  | Pass user => requireAdmin user
  | stop => stop
  end.

End Auth.

(** ** Password strength

    [validatePasswordStrength], server.js, lines 300-321. *)

Module Password.

(** A string holds the UTF-8 bytes of its text.  The regular expressions
    of the function name ASCII characters only, which are the bytes below
    128, and [length] counts UTF-16 code units: one for a character of one
    to three bytes, two for a character of four bytes. *)
Definition code (c : Ascii.ascii) : N := Ascii.N_of_ascii c.

Definition units (c : Ascii.ascii) : nat :=
  if (128 <=? code c)%N && (code c <? 192)%N then 0
  else if (240 <=? code c)%N then 2
  else 1.

Fixpoint length_utf16 (s : string) : nat :=
  match s with
  | EmptyString => 0
  | String c rest => units c + length_utf16 rest
  end.

(** [regex.test(s)] for a regular expression that is one character class. *)
Fixpoint test (class : Ascii.ascii -> bool) (s : string) : bool :=
  match s with
  | EmptyString => false
  | String c rest => class c || test class rest
  end.

(** [/[A-Z]/], [/[a-z]/], [/\d/]. *)
Definition upper (c : Ascii.ascii) : bool := (65 <=? code c)%N && (code c <=? 90)%N.
Definition lower (c : Ascii.ascii) : bool := (97 <=? code c)%N && (code c <=? 122)%N.
Definition digit (c : Ascii.ascii) : bool := (48 <=? code c)%N && (code c <=? 57)%N.

(** The class of the fourth regular expression, by character code: the
    characters [! @ # $ % ^ & * ( ) , . ?], the double quote, and
    [: { } | < >]. *)
Definition special (c : Ascii.ascii) : bool :=
  bool_decide (code c ∈ [33; 64; 35; 36; 37; 94; 38; 42; 40; 41; 44; 46; 63;
                         34; 58; 123; 125; 124; 60; 62]%N).

Inductive weakness : Type :=
| TooShort     (* '비밀번호는 8자 이상이어야 합니다' *)
| NoUpperCase  (* '비밀번호에 대문자가 포함되어야 합니다' *)
| NoNumber     (* '비밀번호에 숫자가 포함되어야 합니다' *)
| NoSpecial.   (* '비밀번호에 특수문자(...)가 포함되어야 합니다' *)

(** The object the function returns: [{ valid: false, error }] or
    [{ valid: true }]. *)
Record check : Type := {
  valid : bool;
  error : option weakness
}.

Section Strength.

Variable runtime_ToNumber : value -> float.
Variable runtime_join : list value -> bool.

(** [ToString] on numbers, and on arrays and objects that can be
    converted, taken as a parameter like [runtime_ToNumber]. *)
Variable runtime_ToString : value -> string.

(** The string a regular expression tests its argument as. *)
Definition ToString (v : value) : string :=
  match v with
  | VStr s => s
  | VUndefined => "undefined"
  | VNull => "null"
  | VBool true => "true"
  | VBool false => "false"
  | VNum _ | VArr _ | VObj _ => runtime_ToString v
  end.

(** [password.length < minLength] with [minLength = 8], for a [password]
    that is not nullish: a string and an array have a length, an object may
    have a [length] property, which is then converted to a number, and on
    anything else [length] is [undefined], which is not less than 8. *)
Definition too_short (password : value) : completion bool :=
  match password with
  | VStr s => Normal (length_utf16 s <? 8)
  | VArr elements => Normal (length elements <? 8)
  | VObj _ =>
      match ToNumber runtime_ToNumber runtime_join
              (prop password "length") with
      | Normal x => Normal (x <? 8)%float
      | Throw => Throw
      end
  | _ => Normal false
  end.

(** The four tests run first, on any value, and convert it to a string,
    which raises a TypeError on a value that cannot be converted; reading
    [length] off a nullish password then raises a TypeError.
    [hasLowerCase] is computed and not used. *)
Definition validatePasswordStrength (password : value) : completion check :=
  if negb (convertible runtime_join password) then Throw
  else
    let hasUpperCase := test upper (ToString password) in
    let hasLowerCase := test lower (ToString password) in
    let hasNumber := test digit (ToString password) in
    let hasSpecialChar := test special (ToString password) in
    if nullish password then Throw
    else
      match too_short password with
      | Throw => Throw
      | Normal true => Normal {| valid := false; error := Some TooShort |}
      | Normal false =>
          if negb hasUpperCase
          then Normal {| valid := false; error := Some NoUpperCase |}
          else if negb hasNumber
          then Normal {| valid := false; error := Some NoNumber |}
          else if negb hasSpecialChar
          then Normal {| valid := false; error := Some NoSpecial |}
          else Normal {| valid := true; error := None |}
      end.

End Strength.

End Password.

(** ** Administration of orders and books

    [PATCH /api/admin/orders/:id/status], server.js, lines 1119-1146, and
    [DELETE /api/admin/books/:id], lines 1041-1061, after the two
    middlewares. *)

Definition allowedStatuses : list string :=
  ["READY"; "DONE"; "SHIPPING"; "DELIVERED"; "CANCELED"].

(** [list.includes(v)] for a list of strings. *)
Definition includes (l : list string) (v : value) : bool :=
  match v with
  | VStr s => bool_decide (s ∈ l)
  | _ => false
  end.

Inductive admin_message : Type :=
| InvalidStatus   (* `유효하지 않은 상태입니다. 허용: READY, DONE, ...` *)
| OrderNotFound   (* '주문을 찾을 수 없습니다' *)
| BookNotFound    (* '상품을 찾을 수 없습니다' *)
| AdminServerError.  (* '서버 오류가 발생했습니다' *)

Inductive admin_payload : Type :=
| AdminError (why : admin_message)
    (* { error } *)
| StatusChanged (row_id : positive) (order_id status : value)
    (* { message: '주문 상태가 변경되었습니다', order: { id, order_id, status } } *)
| BookDeactivated (title : string).
    (* { message: `"${title}" 상품이 비활성화되었습니다` } *)

Record admin_response : Type := {
  admin_status : Z;
  admin_body : admin_payload
}.

Definition admin_error (http : Z) (why : admin_message) : admin_response :=
  {| admin_status := http; admin_body := AdminError why |}.

(** [SET status = $1] on one row. *)
Definition set_status (new_status : value) (o : order) : order :=
  {| id := id o; user_id := user_id o; order_id := order_id o;
     payment_key := payment_key o; order_name := order_name o;
     total_amount := total_amount o; status := new_status;
     method := method o; items := items o;
     payment_response := payment_response o;
     created_at := created_at o; approved_at := approved_at o |}.

(** [SET is_active = false] on one row. *)
Definition deactivate (b : book) : book :=
  {| book_id := book_id b; title := title b; price := price b;
     is_active := false |}.

(** The [books] table with the two caches that [refreshBooksCache] sets. *)
Record catalog : Type := {
  books : list book;
  BOOKS_CACHE : list book;
  BOOKS_MAP_CACHE : gmap positive book
}.

Section Admin.

(** [parseInt] on the text of a route parameter, taken from the runtime. *)
Variable parseInt : string -> float.

(** [id_param] is [req.params.id]; [query_ok] tells whether the database
    answers the [UPDATE].  [UPDATE orders SET status = $1 WHERE id = $2
    RETURNING id, order_id, status]. *)
Definition orders_status (id_param : string) (req_body : value)
    (query_ok : bool) (orders : list order) : list order * admin_response :=
  let orderId := parseInt id_param in
  if nullish req_body then (orders, admin_error 500 AdminServerError)
  else
    let new_status := prop req_body "status" in
    if negb (truthy new_status) || negb (includes allowedStatuses new_status)
    then (orders, admin_error 400 InvalidStatus)
    else if negb query_ok then (orders, admin_error 500 AdminServerError)
    else
      match pg_integer orderId with
      | None => (orders, admin_error 500 AdminServerError)
      | Some z =>
          match filter (fun o => Zpos (id o) = z) orders with
          | [] => (orders, admin_error 404 OrderNotFound)
          | row :: _ =>
              ((fun o => if decide (Zpos (id o) = z)
                         then set_status new_status o else o) <$> orders,
               {| admin_status := 200;
                  admin_body := StatusChanged (id row) (order_id row)
                                  new_status |})
          end
      end.

(** [update_ok] and [refresh_ok] tell whether the database answers the
    [UPDATE] and the query of [refreshBooksCache].  [UPDATE books SET
    is_active = false, updated_at = NOW() WHERE id = $1 RETURNING id,
    title], then [refreshBooksCache()]. *)
Definition books_delete (id_param : string) (update_ok refresh_ok : bool)
    (c : catalog) : catalog * admin_response :=
  let bookId := parseInt id_param in
  if negb update_ok then (c, admin_error 500 AdminServerError)
  else
    match pg_integer bookId with
    | None => (c, admin_error 500 AdminServerError)
    | Some z =>
        match filter (fun b => Zpos (book_id b) = z) (books c) with
        | [] => (c, admin_error 404 BookNotFound)
        | row :: _ =>
            let updated :=
              (fun b => if decide (Zpos (book_id b) = z)
                        then deactivate b else b) <$> books c in
            if negb refresh_ok
            then ({| books := updated; BOOKS_CACHE := BOOKS_CACHE c;
                     BOOKS_MAP_CACHE := BOOKS_MAP_CACHE c |},
                  admin_error 500 AdminServerError)
            else ({| books := updated;
                     BOOKS_CACHE := (refreshBooksCache updated).1;
                     BOOKS_MAP_CACHE := (refreshBooksCache updated).2 |},
                  {| admin_status := 200;
                     admin_body := BookDeactivated (title row) |})
        end
    end.

End Admin.

(** [GET /api/books], server.js, lines 951-953: [{ books: BOOKS_CACHE }]. *)
Definition get_books (c : catalog) : list book := BOOKS_CACHE c.

(** ** Accounts

    [POST /api/register], server.js, lines 661-717, and [POST /api/login],
    lines 725-775 (after the rate limiter). *)

Module Users.

(** A row of the [app_users] table; [role] is [None] for [NULL]. *)
Record app_user : Type := {
  id : positive;
  email : string;
  password : string;
  role : option string;
  created_at : Z
}.

Inductive message : Type :=
| MissingRegistration  (* '이메일, 비밀번호를 모두 입력해주세요' *)
| MissingLogin         (* '이메일과 비밀번호를 입력해주세요' *)
| InvalidEmail         (* '올바른 이메일 형식이 아닙니다' *)
| Weak (why : option Password.weakness)   (* passwordCheck.error *)
| EmailTaken           (* '이미 가입된 이메일입니다' *)
| BadCredentials       (* '이메일 또는 비밀번호가 올바르지 않습니다' *)
| ServerError.         (* '서버 오류가 발생했습니다' *)

Inductive payload : Type :=
| Error (why : message)
    (* { error } *)
| Registered (id : positive) (email : string)
    (* { message: '회원가입이 완료되었습니다', user: { id, email } } *)
| LoggedIn (token : string) (id : positive) (email role : string).
    (* { message: '로그인 성공', token, user: { id, email, role } } *)

Record response : Type := {
  http_status : Z;
  body : payload
}.

Definition failure (http : Z) (why : message) : response :=
  {| http_status := http; body := Error why |}.

(** [user.role || 'user']. *)
Definition role_or_user (u : app_user) : string :=
  match role u with
  | Some r => if String.eqb r "" then "user" else r
  | None => "user"
  end.

Section Handlers.

Variable runtime_ToNumber : value -> float.
Variable runtime_join : list value -> bool.
Variable runtime_ToString : value -> string.

(** [validator.isEmail] on a string; on anything else it raises a
    TypeError. *)
Variable isEmail : string -> bool.

(** The text the driver and the database make of a value bound to a
    placeholder for the [VARCHAR] column [email]; [None] when they refuse
    it. *)
Variable pg_text : value -> option string.

(** [bcrypt.compare(data, hash)] on a string [data]; on anything else it
    fails. *)
Variable bcrypt_compare : string -> string -> bool.

(** [jwt.sign({ id, email, role }, process.env.JWT_SECRET, { expiresIn:
    '7d' })] at the time of the call. *)
Variable jwt_sign : positive -> string -> string -> string.

(** [select_ok] tells whether the database answers the [SELECT];
    [hashedPassword] is what [bcrypt.hash(password, 10)] gives for a string,
    with a salt of its own choosing; [pg] is the database's answer to the
    [INSERT], which leaves [role] to its default ['user']. *)
Definition register (req_body : value) (select_ok : bool)
    (hashedPassword : string) (pg : insert_result) (users : list app_user)
  : list app_user * response :=
  if nullish req_body then (users, failure 500 ServerError)
  else
    let email_field := prop req_body "email" in
    let password_field := prop req_body "password" in
    if negb (truthy email_field) || negb (truthy password_field)
    then (users, failure 400 MissingRegistration)
    else
      match email_field with
      | VStr address =>
          if negb (isEmail address) then (users, failure 400 InvalidEmail)
          else
            match Password.validatePasswordStrength runtime_ToNumber
                    runtime_join runtime_ToString password_field with
            | Throw => (users, failure 500 ServerError)
            | Normal passwordCheck =>
                if negb (Password.valid passwordCheck)
                then (users,
                      failure 400 (Weak (Password.error passwordCheck)))
                else if negb select_ok then (users, failure 500 ServerError)
                else
                  match pg_text email_field with
                  | None => (users, failure 500 ServerError)
                  | Some text =>
                      match filter (fun u => email u = text) users with
                      | _ :: _ => (users, failure 409 EmailTaken)
                      | [] =>
                          match password_field, pg with
                          | VStr _, Inserted new_id now =>
                              (users ++ [ {| id := new_id; email := text;
                                             password := hashedPassword;
                                             role := Some "user";
                                             created_at := now |} ],
                               {| http_status := 201;
                                  body := Registered new_id text |})
                          | _, _ => (users, failure 500 ServerError)
                          end
                      end
                  end
            end
      | _ => (users, failure 500 ServerError)
      end.

(** [SELECT * FROM app_users WHERE email = $1], then [bcrypt.compare] with
    the first row. *)
Definition login (req_body : value) (select_ok : bool)
    (users : list app_user) : response :=
  if nullish req_body then failure 500 ServerError
  else
    let email_field := prop req_body "email" in
    let password_field := prop req_body "password" in
    if negb (truthy email_field) || negb (truthy password_field)
    then failure 400 MissingLogin
    else if negb select_ok then failure 500 ServerError
    else
      match pg_text email_field with
      | None => failure 500 ServerError
      | Some text =>
          match filter (fun u => email u = text) users with
          | [] => failure 401 BadCredentials
          | user :: _ =>
              match password_field with
              | VStr secret =>
                  if negb (bcrypt_compare secret (password user))
                  then failure 401 BadCredentials
                  else
                    {| http_status := 200;
                       body := LoggedIn
                                 (jwt_sign (id user) (email user)
                                    (role_or_user user))
                                 (id user) (email user)
                                 (role_or_user user) |}
              | _ => failure 500 ServerError
              end
          end
      end.

End Handlers.

End Users.

(** ** Vocabulary of the properties *)

(** The rejection [validatePaymentAmount] returns before it has a total. *)
Definition rejected (why : reason) : validation :=
  {| valid := false; error := Some why; calculatedTotal := None |}.

(** [Σ price × quantity] over [(price, quantity)] pairs, added in list order
    from 0 in binary64 arithmetic. *)
Definition subtotal (lines : list (float * float)) : float :=
  foldl (fun acc l => acc + l.1 * l.2)%float 0%float lines.

(** The quantity check of the loop lets [quantity] through. *)
Definition quantity_passes (runtime_ToNumber : value -> float)
    (runtime_join : list value -> bool) (quantity : value) : Prop :=
  truthy quantity = true
  /\ le runtime_ToNumber runtime_join quantity 0 = Normal false.

(** A cart line the cache confirms at master price [l.1] and quantity
    [l.2]: its [bookId] is in the cache, its [price] is strictly equal to
    the cached price, and its [quantity] is a number greater than 0. *)
Definition confirmed_line (BOOKS_MAP_CACHE : gmap positive book)
    (item : value) (l : float * float) : Prop :=
  (exists b, Map_get BOOKS_MAP_CACHE (prop item "bookId") = Some b
             /\ price b = l.1)
  /\ strict_eq (prop item "price") (VNum l.1) = true
  /\ prop item "quantity" = VNum l.2
  /\ (0 <? l.2)%float = true.

(** A cart line with a field that cannot be converted to a primitive, among
    the fields the loop converts. *)
Definition unconvertible_line (runtime_join : list value -> bool)
    (item : value) : Prop :=
  convertible runtime_join (prop item "quantity") = false
  \/ convertible runtime_join (prop item "bookId") = false
  \/ convertible runtime_join (prop item "price") = false.

(** The status of an order is one of [allowedStatuses]. *)
Definition status_allowed (o : order) : Prop :=
  includes allowedStatuses (status o) = true.

(** No character of [s] is a space. *)
Fixpoint no_space (s : string) : bool :=
  match s with
  | EmptyString => true
  | String c rest => negb (Ascii.eqb c space) && no_space rest
  end.

(** The characters of a string. *)
Fixpoint chars (s : string) : list Ascii.ascii :=
  match s with
  | EmptyString => []
  | String c rest => c :: chars rest
  end.

(** A cart line the loop lets through at master price [l.1] and quantity
    [l.2]: its [bookId] is in the cache, its [price] is strictly equal to
    the cached price, its [quantity] passes the quantity check and [l.2] is
    the number the quantity converts to. *)
Definition accepted_line (runtime_ToNumber : value -> float)
    (runtime_join : list value -> bool)
    (BOOKS_MAP_CACHE : gmap positive book)
    (item : value) (l : float * float) : Prop :=
  exists b, Map_get BOOKS_MAP_CACHE (prop item "bookId") = Some b
            /\ price b = l.1
            /\ strict_eq (prop item "price") (VNum l.1) = true
            /\ quantity_passes runtime_ToNumber runtime_join
                 (prop item "quantity")
            /\ ToNumber runtime_ToNumber runtime_join (prop item "quantity")
               = Normal l.2.

(** * Sample data *)

Module Sample.

(** [{ bookId, quantity, price }]. *)
Definition line (bookId quantity price : value) : value :=
  VObj (list_to_map
          [("bookId", bookId); ("quantity", quantity); ("price", price)]).

Definition books : list book :=
  [ {| book_id := 1; title := "Modern JavaScript Deep Dive";
       price := 45000; is_active := true |};
    {| book_id := 2; title := "Clean Code";
       price := 12000; is_active := true |};
    {| book_id := 3; title := "Demian";
       price := 8100; is_active := true |};
    {| book_id := 4; title := "Sapiens";
       price := 18000; is_active := true |};
    {| book_id := 5; title := "Almond";
       price := 10800; is_active := false |} ].

Definition BOOKS_MAP_CACHE : gmap positive book := (refreshBooksCache books).2.

(** No sample converts a string or an array to a number. *)
Definition runtime_ToNumber (_ : value) : float := nan.

(** [join] with a call stack that is deep enough for the samples: it
    completes when every element can be converted to a string. *)
Fixpoint converts (v : value) : bool :=
  match v with
  | VObj props => bool_decide (props !! "toString" = None)
  | VArr elements => forallb converts elements
  | _ => true
  end.

Definition runtime_join (elements : list value) : bool :=
  forallb converts elements.

Definition validate : value -> value -> completion validation :=
  validatePaymentAmount runtime_ToNumber runtime_join BOOKS_MAP_CACHE.

(** The columns of the samples take strings as they are and read no number
    from text. *)
Definition pg_text (v : value) : option string :=
  match v with
  | VStr text => Some text
  | _ => None
  end.

Definition pg_integer_text (_ : value) : option float := None.

(** Sample requests and providers. *)

(** [{ paymentKey, orderId, amount, items }]. *)
Definition request (amount items : value) : value :=
  VObj (list_to_map
          [("paymentKey", VStr "test-key"); ("orderId", VStr "test-1");
           ("amount", amount); ("items", items)]).

(** A provider that approves and reports [totalAmount] as the total. *)
Definition approve (totalAmount : value) (paymentKey orderId amount : value)
  : fetch_result :=
  Response 200
    (Some (VObj (list_to_map
                   [("orderId", orderId); ("paymentKey", paymentKey);
                    ("orderName", VStr "Modern JavaScript Deep Dive");
                    ("totalAmount", totalAmount); ("status", VStr "DONE");
                    ("method", VStr "CARD");
                    ("approvedAt", VStr "2026-01-01T00:00:00+09:00")]))).

(** A provider that approves the amount it is asked to confirm. *)
Definition approve_amount (paymentKey orderId amount : value) : fetch_result :=
  approve amount paymentKey orderId amount.

(** A provider that refuses the payment. *)
Definition refuse (paymentKey orderId amount : value) : fetch_result :=
  Response 400
    (Some (VObj (list_to_map
                   [("code", VStr "NOT_FOUND_PAYMENT_SESSION");
                    ("message", VStr "payment session not found")]))).

Definition one_book : value :=
  VArr [line (VNum 1) (VNum 1) (VNum 45000)].

(** The confirmation handler with the sample runtime, cache and columns. *)
Definition confirm (toss_confirm : value -> value -> value -> fetch_result)
  : positive -> value -> insert_result -> list order
    -> list order * response :=
  payments_confirm runtime_ToNumber runtime_join BOOKS_MAP_CACHE
    pg_text pg_integer_text toss_confirm.

(** A stored order of [user] created at [time]. *)
Definition stored (row_id user : positive) (reference : string) (time : Z)
  : order :=
  {| id := row_id; user_id := user; order_id := VStr reference;
     payment_key := VStr ("key-" ++ reference);
     order_name := VStr "Demian"; total_amount := VNum 11100;
     status := VStr "DONE"; method := VStr "CARD";
     items := VArr [line (VNum 3) (VNum 1) (VNum 8100)];
     payment_response := VObj ∅;
     created_at := time; approved_at := time |}.

Definition orders : list order :=
  [stored 1 7 "a" 100; stored 2 8 "b" 200; stored 3 7 "c" 300].

End Sample.

(** Sample tokens, route parameters and catalog. *)

Module SampleAdmin.

Definition payload (role : string) : value :=
  VObj (list_to_map [("id", VNum 7); ("email", VStr "reader@example.com");
                     ("role", VStr role)]).

(** Two tokens verify: one of an administrator, one of a user. *)
Definition jwt_verify (token : string) : option value :=
  if String.eqb token "admin-token" then Some (payload "admin")
  else if String.eqb token "user-token" then Some (payload "user")
  else None.

(** [parseInt] on the route parameters of the samples. *)
Definition parseInt (text : string) : float :=
  if String.eqb text "3" then 3%float
  else if String.eqb text "9" then 9%float
  else nan.

Definition catalog : catalog :=
  {| books := Sample.books;
     BOOKS_CACHE := (refreshBooksCache Sample.books).1;
     BOOKS_MAP_CACHE := (refreshBooksCache Sample.books).2 |}.

End SampleAdmin.

Module SampleUsers.

Definition isEmail (text : string) : bool :=
  String.eqb text "reader@example.com" || String.eqb text "new@example.com".

Definition pg_text (v : value) : option string :=
  match v with
  | VStr text => Some text
  | _ => None
  end.

(** The sample hash of a password is the password behind a prefix. *)
Definition bcrypt_hash (data : string) : string := "$2b$10$" +:+ data.

Definition bcrypt_compare (data hash : string) : bool :=
  String.eqb (bcrypt_hash data) hash.

Definition jwt_sign (id : positive) (email role : string) : string :=
  email +:+ "/" +:+ role.

Definition users : list Users.app_user :=
  [ {| Users.id := 1; Users.email := "admin@example.com";
       Users.password := bcrypt_hash "Admin123!";
       Users.role := Some "admin"; Users.created_at := 1700000000 |};
    {| Users.id := 2; Users.email := "reader@example.com";
       Users.password := bcrypt_hash "Reader123!";
       Users.role := None; Users.created_at := 1700000100 |} ].

Definition credentials (email password : string) : value :=
  VObj (list_to_map [("email", VStr email); ("password", VStr password)]).

Definition register :=
  Users.register Sample.runtime_ToNumber Sample.runtime_join
    (fun _ => EmptyString) isEmail pg_text.

Definition login := Users.login pg_text bcrypt_compare jwt_sign.

End SampleUsers.

(** * Facts on numbers *)

Module NumberFacts.

(** ** Facts on binary64 comparisons

    The primitive comparisons are specified by [SFcompare] on the
    decoded value [Prim2SF x]; the facts below follow by cases on it. *)

Lemma SFcompare_swap (f g : spec_float) :
  SFcompare g f = option_map CompOpp (SFcompare f g).
Proof.
  destruct f as [[]|[]| |[] m e], g as [[]|[]| |[] m' e']; simpl; try reflexivity.
  all: pose proof (Pos.compare_antisym m' m) as Hm; unfold Pos.compare in Hm.
  all: rewrite (Z.compare_antisym e' e), Hm.
  all: destruct (e' ?= e)%Z; simpl; try reflexivity.
  all: destruct (Pos.compare_cont Eq m' m); reflexivity.
Qed.

Lemma ltb_not_leb (x y : float) :
  (x <? y)%float = true -> (y <=? x)%float = false.
Proof.
  rewrite FloatAxioms.ltb_spec, FloatAxioms.leb_spec. unfold SFltb, SFleb.
  rewrite (SFcompare_swap (Prim2SF x) (Prim2SF y)).
  destruct (SFcompare (Prim2SF x) (Prim2SF y)) as [[]|]; simpl; congruence.
Qed.

Lemma leb_not_ltb (x y : float) :
  (x <=? y)%float = true -> (y <? x)%float = false.
Proof.
  rewrite FloatAxioms.ltb_spec, FloatAxioms.leb_spec. unfold SFltb, SFleb.
  rewrite (SFcompare_swap (Prim2SF x) (Prim2SF y)).
  destruct (SFcompare (Prim2SF x) (Prim2SF y)) as [[]|]; simpl; congruence.
Qed.

Lemma ltb_not_eqb (x y : float) :
  (x <? y)%float = true -> (y =? x)%float = false.
Proof.
  rewrite FloatAxioms.ltb_spec, FloatAxioms.eqb_spec. unfold SFltb, SFeqb.
  rewrite (SFcompare_swap (Prim2SF x) (Prim2SF y)).
  destruct (SFcompare (Prim2SF x) (Prim2SF y)) as [[]|]; simpl; congruence.
Qed.

Lemma ltb_not_nan_r (x y : float) :
  (x <? y)%float = true -> is_nan y = false.
Proof.
  unfold is_nan. rewrite FloatAxioms.ltb_spec, FloatAxioms.eqb_spec. unfold SFltb, SFeqb.
  destruct (Prim2SF x) as [[]|[]| |[] m e], (Prim2SF y) as [[]|[]| |[] m' e'];
    simpl; try congruence; intros _;
    rewrite Z.compare_refl; fold (Pos.compare m' m');
    rewrite Pos.compare_refl; reflexivity.
Qed.

(** A number greater than zero is truthy and is not [<= 0]. *)
Lemma positive_truthy (q : float) :
  (0 <? q)%float = true -> Number.falsy q = false.
Proof.
  intros H. unfold Number.falsy, is_zero, zero.
  rewrite (ltb_not_eqb _ _ H), (ltb_not_nan_r _ _ H). reflexivity.
Qed.

Lemma positive_not_le_zero (q : float) :
  (0 <? q)%float = true -> (q <=? 0)%float = false.
Proof. apply ltb_not_leb. Qed.

(** A number that denotes a non-zero integer is truthy. *)
Lemma to_Z_nonzero_truthy (x : float) (z : Z) :
  Number.to_Z x = Some z -> z <> 0%Z -> Number.falsy x = false.
Proof.
  unfold Number.to_Z, Number.SF_to_Z, Number.falsy, is_zero, is_nan. rewrite !FloatAxioms.eqb_spec.
  change (Prim2SF zero) with (S754_zero false).
  destruct (Prim2SF x) as [s|s| |s m e]; simpl; try congruence.
  intros _ _. unfold SFeqb, SFcompare.
  destruct s; rewrite Z.compare_refl; fold (Pos.compare m m);
    rewrite Pos.compare_refl; reflexivity.
Qed.

End NumberFacts.

(** * Properties of the cache *)

Lemma Map_of_rows_lookup (rows : list book) (p : positive) (b : book) :
  forall m : gmap positive book,
  foldl (fun m b => <[book_id b := b]> m) m rows !! p = Some b ->
  (b ∈ rows /\ book_id b = p) \/ m !! p = Some b.
Proof.
  induction rows as [|a rows IH]; intros m H; simpl in H; [right; exact H|].
  destruct (IH _ H) as [[Hin Hid]|Hm].
  - left. split; [right; exact Hin|exact Hid].
  - destruct (decide (book_id a = p)) as [Heq|Hne].
    + rewrite <- Heq, lookup_insert_eq in Hm. injection Hm as <-.
      left. split; [left|exact Heq].
    + rewrite lookup_insert_ne in Hm by exact Hne. right. exact Hm.
Qed.

(** After a refresh the map holds active rows of the table only, each
    under its own identifier. *)
Lemma refreshBooksCache_lookup (books : list book) (p : positive) (b : book) :
  (refreshBooksCache books).2 !! p = Some b ->
  b ∈ books /\ is_active b = true /\ book_id b = p.
Proof.
  unfold refreshBooksCache, Map_of_rows. simpl. intros H.
  destruct (Map_of_rows_lookup _ _ _ _ H) as [[Hin Hid]|Hempty].
  - rewrite (merge_sort_Permutation by_id) in Hin.
    apply list_elem_of_filter in Hin. destruct Hin as [Hact Hin]. done.
  - rewrite lookup_empty in Hempty. discriminate Hempty.
Qed.

(** * Properties of the amount validator *)

(** One step of a case analysis on the code behind an equation [H]: the
    condition of the outermost [if], or the scrutinee of the outermost
    [match]. *)
Ltac case_head H :=
  match type of H with
  | (if ?c then _ else _) = _ => destruct c eqn:?
  | match ?c with _ => _ end = _ => destruct c eqn:?
  end.

Section ValidatorFacts.

Variable runtime_ToNumber : value -> float.
Variable runtime_join : list value -> bool.
Variable BOOKS_MAP_CACHE : gmap positive book.

Abbreviation check_item :=
  (check_item runtime_ToNumber runtime_join BOOKS_MAP_CACHE).
Abbreviation for_items :=
  (for_items runtime_ToNumber runtime_join BOOKS_MAP_CACHE).
Abbreviation validatePaymentAmount :=
  (validatePaymentAmount runtime_ToNumber runtime_join BOOKS_MAP_CACHE).
Abbreviation quantity_passes :=
  (quantity_passes runtime_ToNumber runtime_join).
Abbreviation confirmed_line := (confirmed_line BOOKS_MAP_CACHE).
Abbreviation convertible := (convertible runtime_join).

Lemma Map_get_truthy (key : value) (b : book) :
  Map_get BOOKS_MAP_CACHE key = Some b -> truthy key = true.
Proof.
  destruct key as [| | |x| | |]; simpl; try discriminate.
  destruct (Number.to_Z x) as [[|p|p]|] eqn:Hx; try discriminate.
  intros _. rewrite (NumberFacts.to_Z_nonzero_truthy x (Z.pos p)); done.
Qed.

Lemma Map_get_not_nullish (item : value) (k : string) (b : book) :
  Map_get BOOKS_MAP_CACHE (prop item k) = Some b -> nullish item = false.
Proof. destruct item; simpl; done. Qed.

Lemma number_quantity_passes (q : float) :
  (0 <? q)%float = true -> quantity_passes (VNum q).
Proof.
  intros Hq. split; simpl.
  - rewrite NumberFacts.positive_truthy; done.
  - unfold le; simpl. rewrite (NumberFacts.positive_not_le_zero _ Hq).
    reflexivity.
Qed.

(** A quantity that passes the check has been converted to a number. *)
Lemma quantity_passes_ToNumber (quantity : value) :
  quantity_passes quantity ->
  exists q, ToNumber runtime_ToNumber runtime_join quantity = Normal q.
Proof.
  intros [_ Hle]. unfold le in Hle.
  destruct (ToNumber _ _ quantity) as [q|]; [|discriminate Hle].
  exists q. reflexivity.
Qed.

(** The loop body on a line that passes the field and cache checks. *)
Lemma check_item_found (item : value) (b : book) (s : float) :
  Map_get BOOKS_MAP_CACHE (prop item "bookId") = Some b ->
  quantity_passes (prop item "quantity") ->
  check_item item s =
    if strict_eq (prop item "price") (VNum (price b))
    then match mul runtime_ToNumber runtime_join (price b)
                 (prop item "quantity") with
         | Normal product => Normal (Continue (s + product))
         | Throw => Throw
         end
    else if convertible (prop item "price")
         then Normal (Return (rejected (PriceMismatch (title b) (price b)
                                          (prop item "price"))))
         else Throw.
Proof.
  intros Hb [Ht Hle]. unfold check_item.
  rewrite (Map_get_not_nullish _ _ _ Hb), (Map_get_truthy _ _ Hb), Ht.
  cbn [negb orb]. rewrite Hle, Hb.
  destruct (strict_eq (prop item "price") (VNum (price b))); [reflexivity|].
  destruct (convertible (prop item "price")); reflexivity.
Qed.

Lemma check_item_confirmed (item : value) (l : float * float) (s : float) :
  confirmed_line item l ->
  check_item item s = Normal (Continue (s + l.1 * l.2)).
Proof.
  intros ([b [Hb Hp]] & Heq & Hq & Hpos).
  rewrite (check_item_found item b s Hb).
  - rewrite Hp, Heq, Hq. reflexivity.
  - rewrite Hq. apply number_quantity_passes, Hpos.
Qed.

Lemma for_items_confirmed (items : list value) (lines : list (float * float)) :
  Forall2 confirmed_line items lines ->
  forall s, for_items items s =
            Normal (Continue (foldl (fun acc l => acc + l.1 * l.2)%float s lines)).
Proof.
  induction 1 as [|item l items lines Hl _ IH]; intros s; simpl.
  - reflexivity.
  - rewrite (check_item_confirmed item l s Hl). apply IH.
Qed.

(** On confirmed lines the validator reaches the final comparison. *)
Lemma validatePaymentAmount_confirmed (items : list value)
    (lines : list (float * float)) (expectedTotal : value) :
  items <> [] ->
  Forall2 confirmed_line items lines ->
  validatePaymentAmount (VArr items) expectedTotal =
    let total := (subtotal lines + shippingFee (subtotal lines))%float in
    if strict_eq (VNum total) expectedTotal
    then Normal {| valid := true; error := None;
                   calculatedTotal := Some total |}
    else if convertible expectedTotal
         then Normal {| valid := false;
                        error := Some (TotalMismatch total expectedTotal);
                        calculatedTotal := Some total |}
         else Throw.
Proof.
  intros Hne Hl. destruct items as [|item items]; [done|].
  unfold validatePaymentAmount, as_array.
  rewrite (for_items_confirmed (item :: items) lines Hl 0).
  fold (subtotal lines). cbv zeta.
  destruct (strict_eq _ expectedTotal); [reflexivity|].
  destruct (convertible expectedTotal); reflexivity.
Qed.


(** C4.  The shipping fee is exactly 0 for every subtotal [>= 30000] and
    exactly 3000 for every subtotal [< 30000]; it is the fee inside the
    total the validator computes; and when confirmed lines add up to
    exactly 30000, a claimed total of 30000 is accepted. *)
Theorem shippingFee_threshold :
  (forall s, (30000 <=? s)%float = true -> shippingFee s = 0%float)
  /\ (forall s, (s <? 30000)%float = true -> shippingFee s = 3000%float)
  /\ (forall items lines expectedTotal,
        items <> [] ->
        Forall2 confirmed_line items lines ->
        convertible expectedTotal = true ->
        exists r,
          validatePaymentAmount (VArr items) expectedTotal = Normal r
          /\ calculatedTotal r
             = Some (subtotal lines + shippingFee (subtotal lines))%float)
  /\ (forall items lines,
        items <> [] ->
        Forall2 confirmed_line items lines ->
        subtotal lines = 30000%float ->
        validatePaymentAmount (VArr items) (VNum 30000) =
          Normal {| valid := true; error := None;
                    calculatedTotal := Some 30000%float |}).
Proof.
  unfold shippingFee at 1 2. repeat split.
  - intros s ->. reflexivity.
  - intros s Hlt. rewrite (NumberFacts.ltb_not_leb _ _ Hlt). reflexivity.
  - intros items lines expectedTotal Hne Hl Hc.
    rewrite (validatePaymentAmount_confirmed items lines expectedTotal Hne Hl).
    cbv zeta. rewrite Hc.
    destruct (strict_eq _ expectedTotal); eexists; split; reflexivity.
  - intros items lines Hne Hl Hs.
    rewrite (validatePaymentAmount_confirmed items lines (VNum 30000) Hne Hl).
    rewrite Hs. reflexivity.
Qed.

(** The loop runs through a confirmed prefix and goes on with the rest. *)
Lemma for_items_app_confirmed (pre : list value)
    (lines : list (float * float)) (rest : list value) :
  Forall2 confirmed_line pre lines ->
  forall s, for_items (pre ++ rest) s =
            for_items rest (foldl (fun acc l => acc + l.1 * l.2)%float s lines).
Proof.
  induction 1 as [|item l pre lines Hl _ IH]; intros s; simpl.
  - reflexivity.
  - rewrite (check_item_confirmed item l s Hl). apply IH.
Qed.

(** A rejection by the loop body is what the validator returns, whatever
    follows the rejected line and whatever total is claimed. *)
Lemma validatePaymentAmount_rejected_at (pre : list value)
    (lines : list (float * float)) (item : value) (post : list value)
    (r : validation) (expectedTotal : value) :
  Forall2 confirmed_line pre lines ->
  (forall s, check_item item s = Normal (Return r)) ->
  validatePaymentAmount (VArr (pre ++ item :: post)) expectedTotal = Normal r.
Proof.
  intros Hpre Hitem. unfold validatePaymentAmount, as_array.
  destruct (pre ++ item :: post) as [|x xs] eqn:Hl.
  { destruct pre; discriminate. }
  rewrite <- Hl, (for_items_app_confirmed pre lines (item :: post) Hpre).
  simpl. rewrite Hitem. reflexivity.
Qed.

(** An exception of the loop body is an exception of the validator. *)
Lemma validatePaymentAmount_throws_at (pre : list value)
    (lines : list (float * float)) (item : value) (post : list value)
    (expectedTotal : value) :
  Forall2 confirmed_line pre lines ->
  (forall s, check_item item s = Throw) ->
  validatePaymentAmount (VArr (pre ++ item :: post)) expectedTotal = Throw.
Proof.
  intros Hpre Hitem. unfold validatePaymentAmount, as_array.
  destruct (pre ++ item :: post) as [|x xs] eqn:Hl.
  { destruct pre; discriminate. }
  rewrite <- Hl, (for_items_app_confirmed pre lines (item :: post) Hpre).
  simpl. rewrite Hitem. reflexivity.
Qed.

(** C5, amended.  When the first line that is not a confirmed line has a
    [bookId] in the cache and a [quantity] that passes the quantity check,
    and its client price is not strictly equal to the cached master price,
    then for every claimed total, also one that equals the correctly
    computed total: the validator rejects with the price-mismatch reason
    when the client price can be converted to a string for the message, and
    it raises when the client price cannot be converted. *)
Theorem price_mismatch_rejected (pre : list value)
    (lines : list (float * float)) (item : value) (post : list value)
    (b : book) (expectedTotal : value) :
  Forall2 confirmed_line pre lines ->
  Map_get BOOKS_MAP_CACHE (prop item "bookId") = Some b ->
  quantity_passes (prop item "quantity") ->
  strict_eq (prop item "price") (VNum (price b)) = false ->
  (convertible (prop item "price") = true ->
   validatePaymentAmount (VArr (pre ++ item :: post)) expectedTotal =
     Normal (rejected (PriceMismatch (title b) (price b) (prop item "price"))))
  /\ (convertible (prop item "price") = false ->
      validatePaymentAmount (VArr (pre ++ item :: post)) expectedTotal =
        Throw).
Proof.
  intros Hpre Hb Hq Hne. split; intros Hc.
  - apply (validatePaymentAmount_rejected_at pre lines); [exact Hpre|].
    intros s. rewrite (check_item_found item b s Hb Hq), Hne, Hc. reflexivity.
  - apply (validatePaymentAmount_throws_at pre lines); [exact Hpre|].
    intros s. rewrite (check_item_found item b s Hb Hq), Hne, Hc. reflexivity.
Qed.

(** C6, amended.  When the first line that is not a confirmed line has a
    truthy [bookId] that is absent from the cache and a [quantity] that
    passes the quantity check, then for every claimed total: the validator
    rejects with the "does not exist" reason when the [bookId] can be
    converted to a string for the message, and it raises when the [bookId]
    cannot be converted. *)
Theorem unknown_product_rejected (pre : list value)
    (lines : list (float * float)) (item : value) (post : list value)
    (expectedTotal : value) :
  Forall2 confirmed_line pre lines ->
  truthy (prop item "bookId") = true ->
  Map_get BOOKS_MAP_CACHE (prop item "bookId") = None ->
  quantity_passes (prop item "quantity") ->
  (convertible (prop item "bookId") = true ->
   validatePaymentAmount (VArr (pre ++ item :: post)) expectedTotal =
     Normal (rejected (NoSuchProduct (prop item "bookId"))))
  /\ (convertible (prop item "bookId") = false ->
      validatePaymentAmount (VArr (pre ++ item :: post)) expectedTotal =
        Throw).
Proof.
  intros Hpre Ht Hb [Hq Hle].
  assert (Hnn : nullish item = false).
  { destruct item; try discriminate Ht; reflexivity. }
  split; intros Hc.
  - apply (validatePaymentAmount_rejected_at pre lines); [exact Hpre|].
    intros s. unfold check_item.
    rewrite Hnn, Ht, Hq. cbn [negb orb]. rewrite Hle, Hb, Hc. reflexivity.
  - apply (validatePaymentAmount_throws_at pre lines); [exact Hpre|].
    intros s. unfold check_item.
    rewrite Hnn, Ht, Hq. cbn [negb orb]. rewrite Hle, Hb, Hc. reflexivity.
Qed.

(** What the loop body returns early is a rejection without a total. *)
Lemma check_item_Return (item : value) (s : float) (r : validation) :
  check_item item s = Normal (Return r) -> exists why, r = rejected why.
Proof.
  unfold check_item. intros H.
  repeat (case_head H; try discriminate H).
  all: injection H as <-; eexists; reflexivity.
Qed.

(** A line the loop body lets through carries a number as its price. *)
Lemma check_item_Continue_price (item : value) (s s' : float) :
  check_item item s = Normal (Continue s') ->
  exists p, prop item "price" = VNum p.
Proof.
  unfold check_item. intros H.
  destruct (nullish item); [discriminate|].
  destruct (_ || _); [discriminate|].
  destruct (le _ _ _ _) as [[]|]; try discriminate.
  destruct (Map_get _ _); [|destruct (negb _); discriminate].
  destruct (prop item "price") as [| | |p| | |];
    try (cbn [strict_eq negb] in H; destruct (negb _); discriminate H).
  exists p. reflexivity.
Qed.

Lemma for_items_Return (items : list value) :
  forall s r, for_items items s = Normal (Return r) ->
  exists why, r = rejected why.
Proof.
  induction items as [|item items IH]; intros s r H; [discriminate|].
  simpl in H. destruct (check_item item s) as [[r1|s1]|] eqn:Hc; try discriminate.
  - injection H as <-. exact (check_item_Return _ _ _ Hc).
  - exact (IH _ _ H).
Qed.

Lemma for_items_Continue_price (items : list value) :
  forall s s', for_items items s = Normal (Continue s') ->
  Forall (fun item => exists p, prop item "price" = VNum p) items.
Proof.
  induction items as [|item items IH]; intros s s' H; [constructor|].
  simpl in H. destruct (check_item item s) as [[r|s1]|] eqn:Hc; try discriminate.
  constructor; [exact (check_item_Continue_price _ _ _ Hc)|exact (IH _ _ H)].
Qed.

(** The results of the validator: a rejection without a total, or, after
    the loop has run through a non-empty array, the outcome of the final
    comparison. *)
Lemma validatePaymentAmount_inv (items expectedTotal : value) (v : validation) :
  validatePaymentAmount items expectedTotal = Normal v ->
  (exists why, v = rejected why)
  \/ exists item rest s,
       items = VArr (item :: rest)
       /\ for_items (item :: rest) 0 = Normal (Continue s)
       /\ v = let total := (s + shippingFee s)%float in
              if strict_eq (VNum total) expectedTotal
              then {| valid := true; error := None;
                      calculatedTotal := Some total |}
              else {| valid := false;
                      error := Some (TotalMismatch total expectedTotal);
                      calculatedTotal := Some total |}.
Proof.
  unfold validatePaymentAmount, as_array. intros H.
  destruct items as [| | | | |lines|];
    try (injection H as <-; left; eexists; reflexivity).
  destruct lines as [|item rest];
    [injection H as <-; left; eexists; reflexivity|].
  destruct (for_items (item :: rest) 0) as [[r|s]|] eqn:Hf; try discriminate.
  - injection H as <-. left. exact (for_items_Return _ _ _ Hf).
  - right. exists item, rest, s. split; [reflexivity|]. split; [exact Hf|].
    cbv zeta in H |- *.
    destruct (strict_eq _ expectedTotal); cbn [negb] in H;
      [injection H as <-; reflexivity|].
    destruct (convertible expectedTotal); cbn [negb] in H;
      [injection H as <-; reflexivity|discriminate H].
Qed.

(** A valid result comes from a non-empty array whose lines all carry a
    number as their price; it holds the computed total, which is strictly
    equal to the claimed one. *)
Lemma valid_inv (items expectedTotal : value) (v : validation) :
  validatePaymentAmount items expectedTotal = Normal v ->
  valid v = true ->
  exists item rest total,
    items = VArr (item :: rest)
    /\ Forall (fun item => exists p, prop item "price" = VNum p) (item :: rest)
    /\ v = {| valid := true; error := None; calculatedTotal := Some total |}
    /\ strict_eq (VNum total) expectedTotal = true.
Proof.
  intros H Hv.
  destruct (validatePaymentAmount_inv _ _ _ H)
    as [[why ->]|(item & rest & s & -> & Hf & ->)]; [discriminate Hv|].
  exists item, rest, (s + shippingFee s)%float.
  split; [reflexivity|]. split; [exact (for_items_Continue_price _ _ _ Hf)|].
  cbv zeta in Hv |- *.
  destruct (strict_eq _ expectedTotal); [split; reflexivity|discriminate Hv].
Qed.

(** C10, amended.  A line without a [price], whose [bookId] is in the
    cache and whose [quantity] passes the quantity check, after confirmed
    lines only, is rejected with the price-mismatch reason (the client price
    in it is [undefined]); and a list with a line that has no [price] is
    never accepted, whatever else the line holds. *)
Theorem absent_price_rejected (item : value) :
  prop item "price" = VUndefined ->
  (forall pre lines post b expectedTotal,
      Forall2 confirmed_line pre lines ->
      Map_get BOOKS_MAP_CACHE (prop item "bookId") = Some b ->
      quantity_passes (prop item "quantity") ->
      validatePaymentAmount (VArr (pre ++ item :: post)) expectedTotal =
        Normal (rejected (PriceMismatch (title b) (price b) VUndefined)))
  /\ (forall pre post expectedTotal r,
        validatePaymentAmount (VArr (pre ++ item :: post)) expectedTotal
          = Normal r ->
        valid r = false).
Proof.
  intros Hp. split.
  - intros pre lines post b expectedTotal Hpre Hb Hq.
    apply (validatePaymentAmount_rejected_at pre lines); [exact Hpre|].
    intros s. rewrite (check_item_found item b s Hb Hq), Hp. reflexivity.
  - intros pre post expectedTotal r H.
    destruct (valid r) eqn:Hv; [exfalso|reflexivity].
    destruct (valid_inv _ _ _ H Hv) as (x & xs & total & Hl & Hall & _).
    injection Hl as Hl. rewrite <- Hl in Hall.
    rewrite Forall_app, Forall_cons in Hall.
    destruct Hall as (_ & [p Hnum] & _). congruence.
Qed.

(** A rejection carries [calculatedTotal] only when it is the final
    total-mismatch rejection. *)
Lemma rejection_calculatedTotal (items expectedTotal : value) (r : validation) :
  validatePaymentAmount items expectedTotal = Normal r ->
  valid r = false ->
  calculatedTotal r = None
  \/ exists total, error r = Some (TotalMismatch total expectedTotal)
                   /\ calculatedTotal r = Some total.
Proof.
  intros H Hv.
  destruct (validatePaymentAmount_inv _ _ _ H)
    as [[why ->]|(item & rest & s & -> & Hf & ->)]; [left; reflexivity|].
  right. cbv zeta in Hv |- *.
  destruct (strict_eq _ expectedTotal); [discriminate Hv|].
  eexists. split; reflexivity.
Qed.

End ValidatorFacts.

(** * Runs on sample data *)

(** Discharges [confirmed_line] on sample data by evaluation. *)
Ltac confirm_sample_line :=
  split; [eexists; split; reflexivity | repeat split; reflexivity].


Lemma shippingFee_threshold_witness :
  Sample.validate
    (VArr [Sample.line (VNum 2) (VNum 1) (VNum 12000);
           Sample.line (VNum 4) (VNum 1) (VNum 18000)])
    (VNum 30000)
  = Normal {| valid := true; error := None;
              calculatedTotal := Some 30000%float |}.
Proof.
  apply (proj2 (proj2 (proj2 (shippingFee_threshold Sample.runtime_ToNumber
                                Sample.runtime_join
                                Sample.BOOKS_MAP_CACHE)))
           [Sample.line (VNum 2) (VNum 1) (VNum 12000);
            Sample.line (VNum 4) (VNum 1) (VNum 18000)]
           [(12000%float, 1%float); (18000%float, 1%float)]).
  - discriminate.
  - constructor; [confirm_sample_line |].
    constructor; [confirm_sample_line | constructor].
  - reflexivity.
Defined.

(** ** Price mismatch *)

Lemma price_mismatch_rejected_witness :
  Sample.validate
    (VArr ([Sample.line (VNum 3) (VNum 1) (VNum 8100)]
           ++ Sample.line (VNum 1) (VNum 1) (VNum 41900) :: []))
    (VNum 53100)
  = Normal (rejected (PriceMismatch "Modern JavaScript Deep Dive" 45000
                        (VNum 41900))).
Proof.
  apply (price_mismatch_rejected Sample.runtime_ToNumber Sample.runtime_join
           Sample.BOOKS_MAP_CACHE
           [Sample.line (VNum 3) (VNum 1) (VNum 8100)]
           [(8100%float, 1%float)]
           (Sample.line (VNum 1) (VNum 1) (VNum 41900)) []
           {| book_id := 1; title := "Modern JavaScript Deep Dive";
              price := 45000; is_active := true |} (VNum 53100)).
  - constructor; [confirm_sample_line | constructor].
  - reflexivity.
  - split; reflexivity.
  - reflexivity.
  - reflexivity.
Defined.

(** C5 as stated asks nothing of the quantity of the line whose price
    differs.  The line [{ bookId: 1, price: 100, quantity: -1 }] has a price
    that differs from the cached 45000 and no line before it, and it is
    rejected by the field check, with the invalid-line-item reason. *)
Lemma price_mismatch_counterexample :
  ~ (forall runtime_ToNumber runtime_join BOOKS_MAP_CACHE pre lines item post
            b expectedTotal,
        Forall2 (confirmed_line BOOKS_MAP_CACHE) pre lines ->
        Map_get BOOKS_MAP_CACHE (prop item "bookId") = Some b ->
        strict_eq (prop item "price") (VNum (price b)) = false ->
        validatePaymentAmount runtime_ToNumber runtime_join BOOKS_MAP_CACHE
          (VArr (pre ++ item :: post)) expectedTotal =
        Normal (rejected (PriceMismatch (title b) (price b)
                            (prop item "price")))).
Proof.
  intros H.
  specialize (H Sample.runtime_ToNumber Sample.runtime_join
                Sample.BOOKS_MAP_CACHE [] []
                (Sample.line (VNum 1) (VNum (-1)) (VNum 100)) []
                {| book_id := 1; title := "Modern JavaScript Deep Dive";
                   price := 45000; is_active := true |} (VNum (-45000))).
  assert (Hrun : Sample.validate
                   (VArr [Sample.line (VNum 1) (VNum (-1)) (VNum 100)])
                   (VNum (-45000))
                 = Normal (rejected InvalidItem)) by reflexivity.
  unfold Sample.validate in Hrun. simpl app in H.
  rewrite H in Hrun; [discriminate Hrun|constructor|reflexivity|reflexivity].
Qed.

(** ** Unknown product *)

Lemma unknown_product_rejected_witness :
  Sample.validate
    (VArr ([] ++ Sample.line (VNum 999) (VNum 1) (VNum 99999) :: []))
    (VNum 99999)
  = Normal (rejected (NoSuchProduct (VNum 999))).
Proof.
  apply (unknown_product_rejected Sample.runtime_ToNumber
           Sample.runtime_join Sample.BOOKS_MAP_CACHE [] []
           (Sample.line (VNum 999) (VNum 1) (VNum 99999)) [] (VNum 99999)).
  - constructor.
  - reflexivity.
  - reflexivity.
  - split; reflexivity.
  - reflexivity.
Defined.

(** C6 as stated asks nothing else of the line whose [bookId] is absent
    from the cache.  The line [{ bookId: 999, price: 99999, quantity: 0 }]
    names no cached product and is rejected by the field check, with the
    invalid-line-item reason. *)
Lemma unknown_product_counterexample :
  ~ (forall runtime_ToNumber runtime_join BOOKS_MAP_CACHE pre lines item post
            expectedTotal,
        Forall2 (confirmed_line BOOKS_MAP_CACHE) pre lines ->
        Map_get BOOKS_MAP_CACHE (prop item "bookId") = None ->
        validatePaymentAmount runtime_ToNumber runtime_join BOOKS_MAP_CACHE
          (VArr (pre ++ item :: post)) expectedTotal =
        Normal (rejected (NoSuchProduct (prop item "bookId")))).
Proof.
  intros H.
  specialize (H Sample.runtime_ToNumber Sample.runtime_join
                Sample.BOOKS_MAP_CACHE [] []
                (Sample.line (VNum 999) (VNum 0) (VNum 99999)) []
                (VNum 99999)).
  assert (Hrun : Sample.validate
                   (VArr [Sample.line (VNum 999) (VNum 0) (VNum 99999)])
                   (VNum 99999)
                 = Normal (rejected InvalidItem)) by reflexivity.
  unfold Sample.validate in Hrun. simpl app in H.
  rewrite H in Hrun; [discriminate Hrun|constructor|reflexivity].
Qed.

(** A falsy [bookId], here 0, is in no cache, and the field check rejects
    it before the cache is asked. *)
Example falsy_bookId_invalid_item :
  Map_get Sample.BOOKS_MAP_CACHE (VNum 0) = None
  /\ Sample.validate (VArr [Sample.line (VNum 0) (VNum 1) (VNum 99999)])
       (VNum 99999)
     = Normal (rejected InvalidItem).
Proof. split; reflexivity. Qed.

(** The message of a rejection cannot be built from a value that cannot
    be converted to a string: with the object [{ toString: 0 }] as the
    price of a line, as its [bookId], or as the claimed total, the validator
    raises where a number in its place is rejected. *)
Example unconvertible_fields_raise :
  let odd := VObj (list_to_map [("toString", VNum 0)]) in
  Sample.validate (VArr [Sample.line (VNum 1) (VNum 1) odd]) (VNum 45000)
  = Throw
  /\ Sample.validate (VArr [Sample.line odd (VNum 1) (VNum 45000)])
       (VNum 45000)
     = Throw
  /\ Sample.validate Sample.one_book odd = Throw.
Proof. repeat split; reflexivity. Qed.

(** ** Absent price *)

Lemma absent_price_rejected_witness :
  let item := VObj (list_to_map [("bookId", VNum 1); ("quantity", VNum 1)]) in
  Sample.validate (VArr ([] ++ item :: [])) (VNum 45000)
  = Normal (rejected (PriceMismatch "Modern JavaScript Deep Dive" 45000
                        VUndefined)).
Proof.
  intros item.
  apply (proj1 (absent_price_rejected Sample.runtime_ToNumber
                  Sample.runtime_join Sample.BOOKS_MAP_CACHE item eq_refl)
           [] [] []
           {| book_id := 1; title := "Modern JavaScript Deep Dive";
              price := 45000; is_active := true |} (VNum 45000)).
  - constructor.
  - reflexivity.
  - split; reflexivity.
Defined.

(** C10 as stated asks nothing else of the line without a price.  The
    line [{ bookId: 1, quantity: -1 }] has no price and is rejected by the
    field check, with the invalid-line-item reason. *)
Lemma absent_price_counterexample :
  ~ (forall runtime_ToNumber runtime_join BOOKS_MAP_CACHE pre lines item post
            b expectedTotal,
        Forall2 (confirmed_line BOOKS_MAP_CACHE) pre lines ->
        Map_get BOOKS_MAP_CACHE (prop item "bookId") = Some b ->
        prop item "price" = VUndefined ->
        validatePaymentAmount runtime_ToNumber runtime_join BOOKS_MAP_CACHE
          (VArr (pre ++ item :: post)) expectedTotal =
        Normal (rejected (PriceMismatch (title b) (price b) VUndefined))).
Proof.
  intros H.
  pose (item := VObj (list_to_map [("bookId", VNum 1); ("quantity", VNum (-1))])).
  specialize (H Sample.runtime_ToNumber Sample.runtime_join
                Sample.BOOKS_MAP_CACHE [] []
                item []
                {| book_id := 1; title := "Modern JavaScript Deep Dive";
                   price := 45000; is_active := true |} (VNum (-45000))).
  assert (Hrun : Sample.validate (VArr [item]) (VNum (-45000))
                 = Normal (rejected InvalidItem)) by reflexivity.
  unfold Sample.validate in Hrun. simpl app in H.
  rewrite H in Hrun; [discriminate Hrun|constructor|reflexivity|reflexivity].
Qed.

(** ** Rejections and the computed total *)

(** C7.  The rejections the loop and the emptiness check return carry a
    reason and no [calculatedTotal]: on the order of the functional test
    "존재하지 않는 상품 차단" the validator returns
    [{ valid: false, error }], where the comment above the function
    promises [{ valid: false, error, calculatedTotal }]. *)
Theorem early_rejection_without_total :
  Sample.validate (VArr [Sample.line (VNum 999) (VNum 1) (VNum 99999)])
    (VNum 99999)
  = Normal {| valid := false; error := Some (NoSuchProduct (VNum 999));
              calculatedTotal := None |}
  /\ Sample.validate (VArr [Sample.line (VNum 1) (VNum 1) (VNum 100)])
       (VNum 103)
     = Normal {| valid := false;
                 error := Some (PriceMismatch "Modern JavaScript Deep Dive"
                                  45000 (VNum 100));
                 calculatedTotal := None |}
  /\ Sample.validate (VArr [Sample.line (VNum 1) (VNum (-1)) (VNum 45000)])
       (VNum (-45000))
     = Normal {| valid := false; error := Some InvalidItem;
                 calculatedTotal := None |}
  /\ Sample.validate (VArr []) (VNum 45000)
     = Normal {| valid := false; error := Some NoItems;
                 calculatedTotal := None |}.
Proof. repeat split; reflexivity. Qed.

(** ** Fractional quantity *)

(** C9.  The line [{ bookId: 1, quantity: 1.5, price: 45000 }] has a
    quantity that is no integer; it passes the quantity check, and the
    validator accepts every claimed total that is strictly equal to
    [45000 × 1.5] plus the shipping fee. *)
Theorem fractional_quantity_accepted (expectedTotal : value) :
  let item := Sample.line (VNum 1) (VNum 1.5) (VNum 45000) in
  let total := (45000 * 1.5 + shippingFee (45000 * 1.5))%float in
  strict_eq (VNum total) expectedTotal = true ->
  Number.to_Z 1.5 = None
  /\ quantity_passes Sample.runtime_ToNumber Sample.runtime_join
       (prop item "quantity")
  /\ Sample.validate (VArr [item]) expectedTotal
     = Normal {| valid := true; error := None;
                 calculatedTotal := Some total |}.
Proof.
  intros item total Heq. split; [reflexivity|]. split; [split; reflexivity|].
  unfold Sample.validate.
  rewrite (validatePaymentAmount_confirmed Sample.runtime_ToNumber
             Sample.runtime_join Sample.BOOKS_MAP_CACHE [item]
             [(45000%float, 1.5%float)]).
  - change (subtotal [(45000%float, 1.5%float)]) with (67500%float).
    change total with (67500 + shippingFee 67500)%float in Heq |- *.
    cbv zeta. rewrite Heq. reflexivity.
  - discriminate.
  - constructor; [confirm_sample_line | constructor].
Qed.

Lemma fractional_quantity_accepted_witness :
  Sample.validate (VArr [Sample.line (VNum 1) (VNum 1.5) (VNum 45000)])
    (VNum 67500)
  = Normal {| valid := true; error := None;
              calculatedTotal := Some 67500%float |}.
Proof.
  apply (fractional_quantity_accepted (VNum 67500)). reflexivity.
Defined.


(** * Properties of the confirmation handler *)

Section ConfirmFacts.

Variable runtime_ToNumber : value -> float.
Variable runtime_join : list value -> bool.
Variable BOOKS_MAP_CACHE : gmap positive book.
Variable pg_text : value -> option string.
Variable pg_integer_text : value -> option float.
Variable toss_confirm : value -> value -> value -> fetch_result.

Abbreviation validatePaymentAmount :=
  (validatePaymentAmount runtime_ToNumber runtime_join BOOKS_MAP_CACHE).
Abbreviation payments_confirm :=
  (payments_confirm runtime_ToNumber runtime_join BOOKS_MAP_CACHE
     pg_text pg_integer_text toss_confirm).
Abbreviation orders_row := (orders_row pg_text pg_integer_text).
Abbreviation varchar := (varchar pg_text).
Abbreviation integer := (integer pg_integer_text).

(** The columns of a row that the [INSERT] of the handler stores. *)
Lemma orders_row_inv (user : positive) (cart tossResult : value)
    (new_id : positive) (now : Z) (o : order) :
  orders_row user cart tossResult new_id now = Some o ->
  id o = new_id
  /\ user_id o = user
  /\ not_null (varchar (prop tossResult "orderId")) = Some (order_id o)
  /\ varchar (prop tossResult "paymentKey") = Some (payment_key o)
  /\ not_null (varchar (prop tossResult "orderName")) = Some (order_name o)
  /\ not_null (integer (prop tossResult "totalAmount"))
     = Some (total_amount o)
  /\ varchar (prop tossResult "status") = Some (status o)
  /\ varchar (prop tossResult "method") = Some (method o)
  /\ jsonb (if truthy cart then cart else VArr []) = Some (items o)
  /\ jsonb tossResult = Some (payment_response o)
  /\ created_at o = now
  /\ approved_at o = now.
Proof.
  unfold orders_row. intros H.
  destruct (not_null (varchar (prop tossResult "orderId"))); [|discriminate H].
  destruct (varchar (prop tossResult "paymentKey")); [|discriminate H].
  destruct (not_null (varchar (prop tossResult "orderName")));
    [|discriminate H].
  destruct (not_null (integer (prop tossResult "totalAmount")));
    [|discriminate H].
  destruct (varchar (prop tossResult "status")); [|discriminate H].
  destruct (varchar (prop tossResult "method")); [|discriminate H].
  destruct (jsonb (if truthy cart then cart else VArr []));
    [|discriminate H].
  destruct (jsonb tossResult); [|discriminate H].
  injection H as <-. simpl. repeat split; reflexivity.
Qed.

(** The handler on a request that has its required fields and passes the
    amount validation: what remains is the exchange with the provider and
    the database. *)
Lemma payments_confirm_validated (user : positive) (req_body : value)
    (pg : insert_result) (orders : list order) (v : validation) :
  truthy (prop req_body "paymentKey") = true ->
  truthy (prop req_body "orderId") = true ->
  truthy (prop req_body "amount") = true ->
  validatePaymentAmount (prop req_body "items") (prop req_body "amount")
    = Normal v ->
  valid v = true ->
  payments_confirm user req_body pg orders =
    match fetch_confirm toss_confirm (prop req_body "paymentKey")
            (prop req_body "orderId") (prop req_body "amount") with
    | FetchFails | Response _ None => (orders, server_error)
    | Response status (Some tossResult) =>
        if nullish tossResult then (orders, server_error)
        else if negb (ok status)
        then (orders,
              {| http_status := status;
                 body := ProviderError (prop tossResult "code")
                           (prop tossResult "message") |})
        else
          match pg with
          | InsertFails => (orders, server_error)
          | Inserted new_id now =>
              match orders_row user (prop req_body "items") tossResult
                      new_id now with
              | None => (orders, server_error)
              | Some row =>
                  (orders ++ [row],
                   {| http_status := 200;
                      body := Completed (prop tossResult "orderId")
                                (prop tossResult "totalAmount")
                                (prop tossResult "method")
                                (prop tossResult "status")
                                (prop tossResult "approvedAt") |})
              end
          end
    end.
Proof.
  intros Hk Ho Ha Hval Hv.
  destruct (valid_inv _ _ _ _ _ _ Hval Hv) as (item & rest & total & Hitems & _).
  unfold payments_confirm.
  assert (Hb : nullish req_body = false).
  { destruct req_body; try discriminate Hk; reflexivity. }
  rewrite Hb, Hk, Ho, Ha, Hval, Hv, Hitems. reflexivity.
Qed.

(** C3.  When a request passes the amount validation and the provider
    answers the confirm call with an error (a status outside 200..299 and a
    JSON body), the [orders] table is left as it was and the response
    carries the provider's status, [code] and [message], in the provider
    error shape and not in the validation error shape. *)
Theorem provider_error_no_order (user : positive) (req_body : value)
    (pg : insert_result) (orders : list order) (v : validation)
    (status : Z) (tossResult : value) :
  truthy (prop req_body "paymentKey") = true ->
  truthy (prop req_body "orderId") = true ->
  truthy (prop req_body "amount") = true ->
  validatePaymentAmount (prop req_body "items") (prop req_body "amount")
    = Normal v ->
  valid v = true ->
  fetch_confirm toss_confirm (prop req_body "paymentKey")
    (prop req_body "orderId") (prop req_body "amount")
    = Response status (Some tossResult) ->
  nullish tossResult = false ->
  ok status = false ->
  payments_confirm user req_body pg orders =
    (orders,
     {| http_status := status;
        body := ProviderError (prop tossResult "code")
                  (prop tossResult "message") |}).
Proof.
  intros Hk Ho Ha Hval Hv Htoss Hnn Hok.
  rewrite (payments_confirm_validated user req_body pg orders v Hk Ho Ha Hval Hv).
  rewrite Htoss, Hnn, Hok. reflexivity.
Qed.

(** Whatever the request, the handler leaves the table as it was or adds
    one row to it; a row is added only after the validation has accepted
    the request and the provider has answered with an ok status, and it is
    the row of the [INSERT]. *)
Lemma payments_confirm_inv (user : positive) (req_body : value)
    (pg : insert_result) (orders : list order) :
  (payments_confirm user req_body pg orders).1 = orders
  \/ exists o total status tossResult new_id now,
       (payments_confirm user req_body pg orders).1 = orders ++ [o]
       /\ truthy (prop req_body "amount") = true
       /\ validatePaymentAmount (prop req_body "items") (prop req_body "amount")
          = Normal {| valid := true; error := None;
                      calculatedTotal := Some total |}
       /\ strict_eq (VNum total) (prop req_body "amount") = true
       /\ fetch_confirm toss_confirm (prop req_body "paymentKey")
            (prop req_body "orderId") (prop req_body "amount")
          = Response status (Some tossResult)
       /\ ok status = true
       /\ orders_row user (prop req_body "items") tossResult new_id now
          = Some o.
Proof.
  unfold payments_confirm.
  destruct (nullish req_body); [left; reflexivity|].
  destruct (truthy (prop req_body "paymentKey")); [|left; reflexivity].
  destruct (truthy (prop req_body "orderId")); [|left; reflexivity].
  destruct (truthy (prop req_body "amount")) eqn:Ha; [|left; reflexivity].
  cbn [negb orb].
  destruct (_ || _); [left; reflexivity|].
  destruct (validatePaymentAmount _ _) as [v|] eqn:Hval; [|left; reflexivity].
  destruct (valid v) eqn:Hv; [|left; reflexivity]. cbn [negb].
  destruct (valid_inv _ _ _ _ _ _ Hval Hv) as (item & rest & total & _ & _ & -> & Heq).
  destruct (fetch_confirm _ _ _ _) as [|status [tossResult|]] eqn:Htoss;
    try (left; reflexivity).
  destruct (nullish tossResult); [left; reflexivity|].
  destruct (ok status) eqn:Hok; [|left; reflexivity]. cbn [negb].
  destruct pg as [|new_id now]; [left; reflexivity|].
  destruct (orders_row _ _ _ _ _) as [o|] eqn:Hrow; [|left; reflexivity].
  right. exists o, total, status, tossResult, new_id, now.
  repeat split; done.
Qed.

(** No row is stored unless the provider has answered the confirm call
    with an ok status. *)
Lemma no_order_unless_approved (user : positive) (req_body : value)
    (pg : insert_result) (orders : list order) :
  (forall status tossResult,
      fetch_confirm toss_confirm (prop req_body "paymentKey")
        (prop req_body "orderId") (prop req_body "amount")
      = Response status (Some tossResult) ->
      ok status = false) ->
  (payments_confirm user req_body pg orders).1 = orders.
Proof.
  intros Hfail.
  destruct (payments_confirm_inv user req_body pg orders)
    as [Hsame|(o & total & status & tossResult & new_id & now
               & _ & _ & _ & _ & Htoss & Hok & _)].
  - exact Hsame.
  - rewrite (Hfail _ _ Htoss) in Hok. discriminate Hok.
Qed.

(** The [INTEGER] column keeps a truthy number that it takes, and takes
    no number that [JSON.stringify] writes as [null]. *)
Lemma integer_truthy_number (a : float) (stored : value) :
  truthy (VNum a) = true ->
  not_null (integer (VNum a)) = Some stored ->
  stored = VNum a /\ JSON_stringify (VNum a) = VNum a.
Proof.
  simpl. unfold Number.falsy. intros Ht H.
  destruct (is_zero a) eqn:Hz; [discriminate Ht|].
  destruct (is_nan a) eqn:Hn; [discriminate Ht|].
  destruct (pg_integer a) as [z|] eqn:Hint; [|discriminate H].
  injection H as <-. split; [reflexivity|].
  destruct (is_infinity a) eqn:Hi; [|reflexivity].
  exfalso. revert Hint Hi. unfold pg_integer, Number.to_Z, is_infinity.
  rewrite FloatAxioms.eqb_spec, FloatAxioms.abs_spec.
  change (Prim2SF infinity) with (S754_infinity false).
  destruct (Prim2SF a) as [s|s| |s m e]; simpl; discriminate.
Qed.

(** C2, amended.  An order the confirmation flow persists was accepted by
    the validation, so the amount the client claimed is strictly equal to
    the total the server computed; its [total_amount] is what the
    [INTEGER] column makes of the [totalAmount] of the provider's answer to
    the confirm call; and when that [totalAmount] is the amount of the
    request, or the amount the provider was sent, the stored [total_amount]
    is strictly equal to the server-computed total. *)
Theorem persisted_total_amount (user : positive) (req_body : value)
    (pg : insert_result) (orders : list order) (o : order) :
  (payments_confirm user req_body pg orders).1 = orders ++ [o] ->
  exists total status tossResult,
    validatePaymentAmount (prop req_body "items") (prop req_body "amount")
      = Normal {| valid := true; error := None;
                  calculatedTotal := Some total |}
    /\ strict_eq (VNum total) (prop req_body "amount") = true
    /\ fetch_confirm toss_confirm (prop req_body "paymentKey")
         (prop req_body "orderId") (prop req_body "amount")
       = Response status (Some tossResult)
    /\ not_null (integer (prop tossResult "totalAmount"))
       = Some (total_amount o)
    /\ (prop tossResult "totalAmount" = prop req_body "amount" ->
        strict_eq (VNum total) (total_amount o) = true)
    /\ (prop tossResult "totalAmount"
          = JSON_stringify (prop req_body "amount") ->
        strict_eq (VNum total) (total_amount o) = true).
Proof.
  intros Hadd.
  destruct (payments_confirm_inv user req_body pg orders)
    as [Hsame|(o' & total & status & tossResult & new_id & now
               & Hadd' & Ha & Hval & Heq & Htoss & _ & Hrow)].
  - rewrite Hsame in Hadd. exfalso.
    apply (f_equal length) in Hadd. rewrite length_app in Hadd. simpl in Hadd. lia.
  - rewrite Hadd' in Hadd. apply app_inv_head in Hadd. injection Hadd as ->.
    destruct (orders_row_inv _ _ _ _ _ _ Hrow)
      as (_ & _ & _ & _ & _ & Htot & _).
    exists total, status, tossResult. repeat split; try done.
    + intros Hecho. rewrite Hecho in Htot.
      destruct (prop req_body "amount") as [| | |a| | |]; try discriminate Heq.
      destruct (integer_truthy_number a _ Ha Htot) as [-> _]. exact Heq.
    + intros Hecho.
      destruct (prop req_body "amount") as [| | |a| | |]; try discriminate Heq.
      destruct (is_nan a || is_infinity a) eqn:Hfin.
      * simpl in Hecho. rewrite Hfin in Hecho. rewrite Hecho in Htot.
        discriminate Htot.
      * assert (Hz : is_zero a = false).
        { simpl in Ha. unfold Number.falsy in Ha.
          destruct (is_zero a); [discriminate Ha|reflexivity]. }
        simpl in Hecho. rewrite Hfin, Hz in Hecho. rewrite Hecho in Htot.
        destruct (integer_truthy_number a _ Ha Htot) as [-> _]. exact Heq.
Qed.

End ConfirmFacts.

(** * Properties of the order lookup *)

#[local] Instance newest_first_total : Total newest_first.
Proof. intros a b. unfold newest_first. lia. Qed.

#[local] Instance newest_first_trans : Transitive newest_first.
Proof. intros a b c. unfold newest_first. lia. Qed.



Lemma provider_error_no_order_witness :
  Sample.confirm Sample.refuse 7%positive
    (Sample.request (VNum 45000) Sample.one_book)
    (Inserted 1 0) []
  = ([], {| http_status := 400;
            body := ProviderError (VStr "NOT_FOUND_PAYMENT_SESSION")
                      (VStr "payment session not found") |}).
Proof.
  refine (provider_error_no_order Sample.runtime_ToNumber
            Sample.runtime_join Sample.BOOKS_MAP_CACHE
            Sample.pg_text Sample.pg_integer_text Sample.refuse 7%positive
            (Sample.request (VNum 45000) Sample.one_book)
            (Inserted 1 0) []
            {| valid := true; error := None;
               calculatedTotal := Some 45000%float |}
            400
            (VObj (list_to_map
                     [("code", VStr "NOT_FOUND_PAYMENT_SESSION");
                      ("message", VStr "payment session not found")]))
            _ _ _ _ _ _ _ _);
    reflexivity.
Defined.

Lemma persisted_total_amount_witness :
  let req_body := Sample.request (VNum 45000) Sample.one_book in
  exists o,
    (Sample.confirm Sample.approve_amount 7%positive req_body
       (Inserted 1 0) []).1
    = [] ++ [o]
    /\ exists total status tossResult,
         Sample.validate (prop req_body "items") (prop req_body "amount")
         = Normal {| valid := true; error := None;
                     calculatedTotal := Some total |}
         /\ strict_eq (VNum total) (prop req_body "amount") = true
         /\ fetch_confirm Sample.approve_amount (prop req_body "paymentKey")
              (prop req_body "orderId") (prop req_body "amount")
            = Response status (Some tossResult)
         /\ not_null (integer Sample.pg_integer_text
                        (prop tossResult "totalAmount"))
            = Some (total_amount o)
         /\ (prop tossResult "totalAmount" = prop req_body "amount" ->
             strict_eq (VNum total) (total_amount o) = true)
         /\ (prop tossResult "totalAmount"
               = JSON_stringify (prop req_body "amount") ->
             strict_eq (VNum total) (total_amount o) = true).
Proof.
  intros req_body. eexists. split; [reflexivity|].
  apply (persisted_total_amount Sample.runtime_ToNumber
           Sample.runtime_join Sample.BOOKS_MAP_CACHE
           Sample.pg_text Sample.pg_integer_text
           Sample.approve_amount 7%positive
           req_body (Inserted 1 0) []).
  reflexivity.
Defined.

(** C2 as stated makes the stored [total_amount] the server-computed
    total.  For one book at 45000 and a claimed amount of 45000 the
    validation computes 45000; when the provider approves and reports a
    [totalAmount] of 1, the row that is stored has [total_amount] 1. *)
Lemma persisted_total_amount_counterexample :
  ~ (forall runtime_ToNumber runtime_join BOOKS_MAP_CACHE pg_text
            pg_integer_text toss_confirm user req_body pg orders o,
        (payments_confirm runtime_ToNumber runtime_join BOOKS_MAP_CACHE
           pg_text pg_integer_text toss_confirm
           user req_body pg orders).1 = orders ++ [o] ->
        exists v total,
          validatePaymentAmount runtime_ToNumber runtime_join BOOKS_MAP_CACHE
            (prop req_body "items") (prop req_body "amount") = Normal v
          /\ calculatedTotal v = Some total
          /\ strict_eq (VNum total) (total_amount o) = true).
Proof.
  intros H.
  destruct (H Sample.runtime_ToNumber Sample.runtime_join
              Sample.BOOKS_MAP_CACHE Sample.pg_text Sample.pg_integer_text
              (Sample.approve (VNum 1)) 7%positive
              (Sample.request (VNum 45000) Sample.one_book)
              (Inserted 1 0) [] _ eq_refl)
    as (v & total & Hv & Ht & Heq).
  assert (Hrun : Sample.validate Sample.one_book (VNum 45000)
                 = Normal {| valid := true; error := None;
                             calculatedTotal := Some 45000%float |})
    by reflexivity.
  change (validatePaymentAmount _ _ _ _ _) with
    (Sample.validate Sample.one_book (VNum 45000)) in Hv.
  rewrite Hrun in Hv. injection Hv as <-. injection Ht as <-.
  discriminate Heq.
Qed.

(** * Further properties of the amount validator *)

Section ValidatorMore.

Variable runtime_ToNumber : value -> float.
Variable runtime_join : list value -> bool.
Variable BOOKS_MAP_CACHE : gmap positive book.

Abbreviation check_item :=
  (check_item runtime_ToNumber runtime_join BOOKS_MAP_CACHE).
Abbreviation for_items :=
  (for_items runtime_ToNumber runtime_join BOOKS_MAP_CACHE).
Abbreviation validatePaymentAmount :=
  (validatePaymentAmount runtime_ToNumber runtime_join BOOKS_MAP_CACHE).
Abbreviation quantity_passes :=
  (quantity_passes runtime_ToNumber runtime_join).
Abbreviation confirmed_line := (confirmed_line BOOKS_MAP_CACHE).
Abbreviation accepted_line :=
  (accepted_line runtime_ToNumber runtime_join BOOKS_MAP_CACHE).
Abbreviation convertible := (convertible runtime_join).
Abbreviation unconvertible_line := (unconvertible_line runtime_join).

(** X1.  After confirmed lines, a line that is an object without a truthy
    [bookId], without a truthy [quantity], or with a [quantity <= 0], is
    rejected with the invalid-line-item reason, whatever its other fields,
    the lines after it and the claimed total are. *)
Theorem invalid_item_rejected (pre : list value)
    (lines : list (float * float)) (item : value) (post : list value)
    (expectedTotal : value) :
  Forall2 confirmed_line pre lines ->
  nullish item = false ->
  truthy (prop item "bookId") = false
  \/ truthy (prop item "quantity") = false
  \/ le runtime_ToNumber runtime_join (prop item "quantity") 0 = Normal true ->
  validatePaymentAmount (VArr (pre ++ item :: post)) expectedTotal =
    Normal (rejected InvalidItem).
Proof.
  intros Hpre Hnn Hbad.
  apply (validatePaymentAmount_rejected_at _ _ _ pre lines); [exact Hpre|].
  intros s. unfold check_item. rewrite Hnn.
  destruct (truthy (prop item "bookId")); [|reflexivity].
  destruct (truthy (prop item "quantity")); [|reflexivity].
  destruct Hbad as [Hb | [Hq | ->]]; [discriminate Hb|discriminate Hq|].
  reflexivity.
Qed.

(** The loop runs through a list only when every line is let through, and
    then the subtotal is the sum over the lines. *)
Lemma for_items_Continue_accepted (items : list value) :
  forall s s', for_items items s = Normal (Continue s') ->
  exists lines,
    Forall2 accepted_line items lines
    /\ s' = foldl (fun acc l => acc + l.1 * l.2)%float s lines.
Proof.
  induction items as [|item items IH]; intros s s' H.
  - injection H as <-. exists []. split; [constructor|reflexivity].
  - simpl in H. destruct (check_item item s) as [[r|s1]|] eqn:Hc; try discriminate.
    destruct (IH _ _ H) as (lines & Hl & ->).
    unfold check_item in Hc.
    destruct (nullish item); [discriminate|].
    destruct (truthy (prop item "bookId")) eqn:Hb; [|discriminate].
    destruct (truthy (prop item "quantity")) eqn:Hq; [|discriminate].
    cbn [negb orb] in Hc.
    destruct (le runtime_ToNumber runtime_join (prop item "quantity") 0)
      as [[]|] eqn:Hle; try discriminate.
    destruct (Map_get BOOKS_MAP_CACHE (prop item "bookId")) as [b|] eqn:Hm;
      [|destruct (negb _); discriminate].
    destruct (strict_eq (prop item "price") (VNum (price b))) eqn:Hp;
      [|destruct (negb (convertible _)); discriminate].
    cbn [negb] in Hc. unfold mul in Hc.
    destruct (ToNumber runtime_ToNumber runtime_join (prop item "quantity"))
      as [q|] eqn:Hn; [|discriminate].
    injection Hc as <-.
    exists ((price b, q) :: lines).
    split; [|reflexivity].
    constructor; [|exact Hl].
    exists b. repeat split; done.
Qed.

(** X2.  The validator accepts only when [items] is a non-empty array in
    which every line names a cached product at exactly its cached price
    with a quantity that passes the quantity check, and the claimed total is
    strictly equal to the subtotal of cached price times quantity plus the
    shipping fee; the result then carries that total. *)
Theorem valid_sound (items expectedTotal : value) (r : validation) :
  validatePaymentAmount items expectedTotal = Normal r ->
  valid r = true ->
  exists item rest lines,
    items = VArr (item :: rest)
    /\ Forall2 accepted_line (item :: rest) lines
    /\ strict_eq (VNum (subtotal lines + shippingFee (subtotal lines)))
         expectedTotal = true
    /\ r = {| valid := true; error := None;
              calculatedTotal :=
                Some (subtotal lines + shippingFee (subtotal lines))%float |}.
Proof.
  intros H Hv.
  destruct (validatePaymentAmount_inv _ _ _ _ _ _ H)
    as [[why ->]|(item & rest & s & -> & Hf & ->)]; [discriminate Hv|].
  destruct (for_items_Continue_accepted _ _ _ Hf) as (lines & Hl & ->).
  exists item, rest, lines. fold (subtotal lines) in Hv |- *.
  cbv zeta in Hv |- *.
  destruct (strict_eq _ expectedTotal); [|discriminate Hv].
  repeat split; done.
Qed.

(** X3.  A rejection carries [calculatedTotal] exactly when it is the
    total-mismatch rejection: then the total it carries is not strictly
    equal to the claimed one; every other rejection has no
    [calculatedTotal]. *)
Theorem rejection_total (items expectedTotal : value) (r : validation) :
  validatePaymentAmount items expectedTotal = Normal r ->
  valid r = false ->
  (exists why, r = rejected why
               /\ forall total claimed, why <> TotalMismatch total claimed)
  \/ (exists total,
        r = {| valid := false;
               error := Some (TotalMismatch total expectedTotal);
               calculatedTotal := Some total |}
        /\ strict_eq (VNum total) expectedTotal = false).
Proof.
  unfold validatePaymentAmount, as_array. intros H Hv.
  assert (Hloop : forall l s r0, for_items l s = Normal (Return r0) ->
            exists why, r0 = rejected why
              /\ forall total claimed, why <> TotalMismatch total claimed).
  { induction l as [|x xs IH]; intros s r0 Hf; [discriminate|].
    simpl in Hf. destruct (check_item x s) as [[r1|s1]|] eqn:Hc; try discriminate.
    - injection Hf as <-. unfold check_item in Hc.
      repeat (case_head Hc; try discriminate Hc).
      all: injection Hc as <-; eexists; split; [reflexivity|done].
    - exact (IH _ _ Hf). }
  destruct items as [| | | | |lines|];
    try (injection H as <-; left; eexists; split; [reflexivity|done]).
  destruct lines as [|item rest];
    [injection H as <-; left; eexists; split; [reflexivity|done]|].
  destruct (for_items (item :: rest) 0) as [[r'|s']|] eqn:Hf; try discriminate.
  - injection H as <-. left. exact (Hloop _ _ _ Hf).
  - cbv zeta in H.
    destruct (strict_eq _ expectedTotal) eqn:Heq; cbn [negb] in H;
      [injection H as <-; discriminate Hv|].
    destruct (convertible expectedTotal); cbn [negb] in H;
      [|discriminate H].
    injection H as <-.
    right. eexists. split; [reflexivity|exact Heq].
Qed.

(** A conversion to a number raises only on a value that cannot be
    converted, and does raise on it. *)
Lemma ToNumber_Throw (v : value) :
  ToNumber runtime_ToNumber runtime_join v = Throw <-> convertible v = false.
Proof.
  destruct v; simpl; try (split; discriminate).
  - destruct (runtime_join _); split; done.
  - destruct (bool_decide _); split; done.
Qed.

(** The loop body raises only at a nullish line or at a line with a field
    that cannot be converted. *)
Lemma check_item_Throw (item : value) (s : float) :
  check_item item s = Throw ->
  nullish item = true \/ unconvertible_line item.
Proof.
  unfold check_item, unconvertible_line. intros H.
  destruct (nullish item); [left; reflexivity|]. right.
  destruct (_ || _); [discriminate|].
  destruct (le _ _ (prop item "quantity") 0) as [[]|] eqn:Hle;
    [discriminate| |].
  - destruct (Map_get _ _).
    + destruct (negb (strict_eq _ _)).
      * destruct (convertible (prop item "price")) eqn:Hc;
          [discriminate|]. right. right. reflexivity.
      * left. apply ToNumber_Throw. unfold mul in H.
        destruct (ToNumber _ _ _); [discriminate|reflexivity].
    + destruct (convertible (prop item "bookId")) eqn:Hc; [discriminate|].
      right. left. reflexivity.
  - left. apply ToNumber_Throw. unfold le in Hle.
    destruct (ToNumber _ _ _); [discriminate|reflexivity].
Qed.

Lemma for_items_Throw (items : list value) :
  forall s, for_items items s = Throw ->
  exists item, item ∈ items
               /\ (nullish item = true \/ unconvertible_line item).
Proof.
  induction items as [|item items IH]; intros s H; [discriminate|].
  simpl in H. destruct (check_item item s) as [[r|s1]|] eqn:Hc; try discriminate.
  - destruct (IH _ H) as (x & Hin & Hx). exists x. split; [right; exact Hin|exact Hx].
  - exists item. split; [left|]. exact (check_item_Throw _ _ Hc).
Qed.

(** X4.  The validator raises an exception only when [items] is an array
    and either one of its elements is [null] (or [undefined]) or has a
    [quantity], [bookId] or [price] that cannot be converted to a primitive,
    or the claimed total cannot be converted.  It does raise when a [null]
    element follows confirmed lines only, and when a line that follows
    confirmed lines only has a truthy [bookId] and a [quantity] that cannot
    be converted. *)
Theorem validatePaymentAmount_throws (items expectedTotal : value) :
  (validatePaymentAmount items expectedTotal = Throw ->
   exists lines,
     items = VArr lines
     /\ ((exists item, item ∈ lines
                       /\ (nullish item = true \/ unconvertible_line item))
         \/ convertible expectedTotal = false))
  /\ (forall pre lines item post,
        items = VArr (pre ++ item :: post) ->
        Forall2 confirmed_line pre lines ->
        nullish item = true ->
        validatePaymentAmount items expectedTotal = Throw)
  /\ (forall pre lines item post,
        items = VArr (pre ++ item :: post) ->
        Forall2 confirmed_line pre lines ->
        nullish item = false ->
        truthy (prop item "bookId") = true ->
        convertible (prop item "quantity") = false ->
        validatePaymentAmount items expectedTotal = Throw).
Proof.
  split; [|split].
  - unfold validatePaymentAmount, as_array. intros H.
    destruct items as [| | | | |lines|]; try discriminate.
    destruct lines as [|item rest]; [discriminate|].
    exists (item :: rest). split; [reflexivity|].
    destruct (for_items (item :: rest) 0) as [[r|s]|] eqn:Hf.
    + discriminate.
    + cbv zeta in H. destruct (negb (strict_eq _ _)); [|discriminate].
      destruct (convertible expectedTotal); [discriminate|].
      right. reflexivity.
    + left. exact (for_items_Throw _ _ Hf).
  - intros pre lines item post -> Hpre Hnull.
    apply (validatePaymentAmount_throws_at _ _ _ pre lines); [exact Hpre|].
    intros s. unfold check_item. rewrite Hnull. reflexivity.
  - intros pre lines item post -> Hpre Hnn Hb Hc.
    apply (validatePaymentAmount_throws_at _ _ _ pre lines); [exact Hpre|].
    intros s. unfold check_item. rewrite Hnn, Hb.
    assert (Hq : truthy (prop item "quantity") = true).
    { destruct (prop item "quantity"); try discriminate Hc; reflexivity. }
    rewrite Hq. cbn [negb orb]. unfold le.
    rewrite (proj2 (ToNumber_Throw _) Hc). reflexivity.
Qed.

End ValidatorMore.

(** * Further properties of the cache *)

#[local] Instance by_id_total : Total by_id.
Proof. intros a b. unfold by_id. lia. Qed.

#[local] Instance by_id_trans : Transitive by_id.
Proof. intros a b c. unfold by_id. lia. Qed.

(** A key no row carries is left as it was. *)
Lemma Map_of_rows_other (rows : list book) (p : positive) :
  p ∉ book_id <$> rows ->
  forall m : gmap positive book,
  foldl (fun m b => <[book_id b := b]> m) m rows !! p = m !! p.
Proof.
  induction rows as [|a rows IH]; intros Hp m; simpl; [reflexivity|].
  rewrite fmap_cons, not_elem_of_cons in Hp. destruct Hp as [Hne Hp].
  rewrite (IH Hp). apply lookup_insert_ne. congruence.
Qed.

(** With distinct keys every row is found under its key. *)
Lemma Map_of_rows_found (rows : list book) (b : book) :
  NoDup (book_id <$> rows) ->
  b ∈ rows ->
  forall m : gmap positive book,
  foldl (fun m b => <[book_id b := b]> m) m rows !! book_id b = Some b.
Proof.
  induction rows as [|a rows IH]; intros Hnd Hin m; [inversion Hin|].
  rewrite fmap_cons, NoDup_cons in Hnd. destruct Hnd as [Ha Hnd].
  simpl. apply elem_of_cons in Hin. destruct Hin as [->|Hin].
  - rewrite (Map_of_rows_other rows (book_id a) Ha). apply lookup_insert_eq.
  - exact (IH Hnd Hin _).
Qed.

(** X5.  After [refreshBooksCache], [BOOKS_CACHE] holds the active rows of
    the table and no others, in ascending order of [id]; every entry of
    [BOOKS_MAP_CACHE] is a row of [BOOKS_CACHE] under its own [id]; and,
    [id] being a key of the table, every row of [BOOKS_CACHE] is found in
    [BOOKS_MAP_CACHE] under its [id]. *)
Theorem refreshBooksCache_spec (books : list book) :
  (refreshBooksCache books).1 ≡ₚ filter (fun b => is_active b = true) books
  /\ StronglySorted by_id (refreshBooksCache books).1
  /\ (forall p b, (refreshBooksCache books).2 !! p = Some b ->
                  b ∈ (refreshBooksCache books).1 /\ book_id b = p)
  /\ (NoDup (book_id <$> books) ->
      forall b, b ∈ (refreshBooksCache books).1 ->
                (refreshBooksCache books).2 !! book_id b = Some b).
Proof.
  unfold refreshBooksCache. simpl.
  set (active := filter (fun b => is_active b = true) books).
  split; [apply merge_sort_Permutation|].
  split; [apply StronglySorted_merge_sort; apply _|]. split.
  - intros p b H. unfold Map_of_rows in H.
    destruct (Map_of_rows_lookup _ _ _ _ H) as [Hin|Hempty]; [exact Hin|].
    rewrite lookup_empty in Hempty. discriminate Hempty.
  - intros Hnd b Hin. apply Map_of_rows_found; [|exact Hin].
    rewrite (merge_sort_Permutation by_id active).
    apply (sublist_NoDup _ (book_id <$> books)); [exact Hnd|].
    apply fmap_sublist, sublist_filter.
Qed.

(** X6.  After a refresh, a line whose [bookId] is the number of an [id]
    that no active row of the table carries (the product was deactivated or
    never existed) is rejected with the "does not exist" reason, when it
    follows confirmed lines and its quantity passes the quantity check. *)
Theorem inactive_product_not_found (runtime_ToNumber : value -> float)
    (runtime_join : list value -> bool)
    (books : list book) (pre : list value) (lines : list (float * float))
    (item : value) (post : list value) (x : float) (p : positive)
    (expectedTotal : value) :
  Forall2 (confirmed_line (refreshBooksCache books).2) pre lines ->
  prop item "bookId" = VNum x ->
  Number.to_Z x = Some (Zpos p) ->
  (forall b, b ∈ books -> book_id b = p -> is_active b = false) ->
  quantity_passes runtime_ToNumber runtime_join (prop item "quantity") ->
  validatePaymentAmount runtime_ToNumber runtime_join
    (refreshBooksCache books).2
    (VArr (pre ++ item :: post)) expectedTotal =
    Normal (rejected (NoSuchProduct (VNum x))).
Proof.
  intros Hpre Hid Hx Hinactive [Hq Hle].
  assert (Hnone : (refreshBooksCache books).2 !! p = None).
  { destruct ((refreshBooksCache books).2 !! p) as [b|] eqn:Hb; [|reflexivity].
    destruct (refreshBooksCache_lookup _ _ _ Hb) as (Hin & Hact & Hp).
    rewrite (Hinactive b Hin Hp) in Hact. discriminate Hact. }
  assert (Hget : Map_get (refreshBooksCache books).2 (VNum x) = None).
  { unfold Map_get. rewrite Hx. exact Hnone. }
  assert (Htruthy : truthy (VNum x) = true).
  { simpl. rewrite (NumberFacts.to_Z_nonzero_truthy x (Z.pos p) Hx); done. }
  assert (Hnn : nullish item = false).
  { destruct item; try discriminate Hid; reflexivity. }
  apply (validatePaymentAmount_rejected_at _ _ _ pre lines); [exact Hpre|].
  intros s. unfold check_item.
  rewrite Hnn, Hid, Htruthy, Hq. cbn [negb orb]. rewrite Hle, Hget.
  reflexivity.
Qed.

(** * Further properties of the confirmation handler *)

Section ConfirmMore.

Variable runtime_ToNumber : value -> float.
Variable runtime_join : list value -> bool.
Variable BOOKS_MAP_CACHE : gmap positive book.
Variable pg_text : value -> option string.
Variable pg_integer_text : value -> option float.

Abbreviation validatePaymentAmount :=
  (validatePaymentAmount runtime_ToNumber runtime_join BOOKS_MAP_CACHE).
Abbreviation payments_confirm :=
  (payments_confirm runtime_ToNumber runtime_join BOOKS_MAP_CACHE
     pg_text pg_integer_text).
Abbreviation varchar := (varchar pg_text).
Abbreviation integer := (integer pg_integer_text).

Lemma not_ok_not_200 (status : Z) : ok status = false -> status <> 200%Z.
Proof. unfold ok. intros H ->. discriminate H. Qed.

(** X7.  Whatever the request, the provider and the database do, the
    handler either answers with a status other than 200 and leaves the
    [orders] table as it was, or answers 200 with the fields of the
    provider's answer and adds exactly one row at the end of the table: the
    row belongs to the authenticated user, its [VARCHAR] and [INTEGER]
    columns hold what the columns make of the fields of the provider's
    answer, and its [items] and [payment_response] hold the documents that
    [JSON.stringify] writes of the request's [items] and of the provider's
    answer. *)
Theorem payments_confirm_outcome
    (toss_confirm : value -> value -> value -> fetch_result)
    (user : positive) (req_body : value) (pg : insert_result)
    (orders : list order) :
  let result := payments_confirm toss_confirm user req_body pg orders in
  (result.1 = orders /\ http_status result.2 <> 200%Z)
  \/ exists o code tossResult,
       result.1 = orders ++ [o]
       /\ fetch_confirm toss_confirm (prop req_body "paymentKey")
            (prop req_body "orderId") (prop req_body "amount")
          = Response code (Some tossResult)
       /\ ok code = true
       /\ result.2 =
            {| http_status := 200;
               body := Completed (prop tossResult "orderId")
                         (prop tossResult "totalAmount")
                         (prop tossResult "method")
                         (prop tossResult "status")
                         (prop tossResult "approvedAt") |}
       /\ user_id o = user
       /\ not_null (varchar (prop tossResult "orderId")) = Some (order_id o)
       /\ varchar (prop tossResult "paymentKey") = Some (payment_key o)
       /\ not_null (varchar (prop tossResult "orderName"))
          = Some (order_name o)
       /\ not_null (integer (prop tossResult "totalAmount"))
          = Some (total_amount o)
       /\ varchar (prop tossResult "status") = Some (status o)
       /\ varchar (prop tossResult "method") = Some (method o)
       /\ items o = JSON_stringify (prop req_body "items")
       /\ payment_response o = JSON_stringify tossResult
       /\ approved_at o = created_at o.
Proof.
  cbv zeta. unfold payments_confirm.
  destruct (nullish req_body); [left; done|].
  destruct (_ || _); [left; done|].
  destruct (truthy (prop req_body "items")) eqn:Hitems; [|left; done].
  cbn [negb]. rewrite orb_false_l.
  destruct (as_array (prop req_body "items")) as [[|item rest]|] eqn:Harr;
    try (left; done).
  destruct (validatePaymentAmount _ _) as [v|]; [|left; done].
  destruct (valid v); [|left; done]. cbn [negb].
  destruct (fetch_confirm _ _ _ _) as [|code [tossResult|]] eqn:Htoss;
    try (left; done).
  destruct (nullish tossResult) eqn:Hnn; [left; done|].
  destruct (ok code) eqn:Hok; cbn [negb].
  - destruct pg as [|new_id now]; [left; done|].
    destruct (orders_row _ _ _ _ _ _ _) as [o|] eqn:Hrow; [|left; done].
    destruct (orders_row_inv _ _ _ _ _ _ _ _ Hrow)
      as (_ & Hu & Hoid & Hkey & Hname & Htot & Hst & Hme & Hit & Hresp
          & Hc & Ha).
    right. exists o, code, tossResult. simpl.
    repeat split; try done.
    + rewrite Hitems in Hit. unfold jsonb in Hit.
      destruct (prop req_body "items"); try discriminate Harr.
      injection Hit as <-. reflexivity.
    + unfold jsonb in Hresp.
      destruct tossResult; try discriminate Hnn;
        injection Hresp as <-; reflexivity.
    + rewrite Hc, Ha. reflexivity.
  - left. split; [reflexivity|]. simpl. exact (not_ok_not_200 _ Hok).
Qed.

(** X8.  A request the validation does not accept is answered without the
    provider and the database having a say: the result is the same for
    every provider and every database answer, and the table is left as it
    was. *)
Theorem rejected_request_ignores_provider
    (toss1 toss2 : value -> value -> value -> fetch_result)
    (user : positive) (req_body : value) (pg1 pg2 : insert_result)
    (orders : list order) :
  (forall v,
      validatePaymentAmount (prop req_body "items") (prop req_body "amount")
        = Normal v ->
      valid v = false) ->
  payments_confirm toss1 user req_body pg1 orders
    = payments_confirm toss2 user req_body pg2 orders
  /\ (payments_confirm toss1 user req_body pg1 orders).1 = orders.
Proof.
  intros Hrej. unfold payments_confirm.
  destruct (nullish req_body); [done|].
  destruct (_ || _); [done|].
  destruct (_ || _); [done|].
  destruct (validatePaymentAmount _ _) as [v|] eqn:Hv; [|done].
  rewrite (Hrej v eq_refl). done.
Qed.

(** X9.  A request with all required fields whose validation rejects is
    answered 400 with the validator's reason as [detail]; one whose
    validation raises an exception is answered 500; neither touches the
    table. *)
Theorem validation_failure_response
    (toss_confirm : value -> value -> value -> fetch_result)
    (user : positive) (req_body : value) (pg : insert_result)
    (orders : list order) (item : value) (rest : list value) :
  truthy (prop req_body "paymentKey") = true ->
  truthy (prop req_body "orderId") = true ->
  truthy (prop req_body "amount") = true ->
  prop req_body "items" = VArr (item :: rest) ->
  (forall v,
      validatePaymentAmount (prop req_body "items") (prop req_body "amount")
        = Normal v ->
      valid v = false ->
      payments_confirm toss_confirm user req_body pg orders =
        (orders, {| http_status := 400; body := ValidationError (error v) |}))
  /\ (validatePaymentAmount (prop req_body "items") (prop req_body "amount")
        = Throw ->
      payments_confirm toss_confirm user req_body pg orders =
        (orders, server_error)).
Proof.
  intros Hk Ho Ha Hitems.
  assert (Hb : nullish req_body = false).
  { destruct req_body; try discriminate Hk; reflexivity. }
  split.
  - intros v Hval Hv. unfold payments_confirm.
    rewrite Hb, Hk, Ho, Ha, Hval, Hv, Hitems. reflexivity.
  - intros Hval. unfold payments_confirm.
    rewrite Hb, Hk, Ho, Ha, Hval, Hitems. reflexivity.
Qed.

End ConfirmMore.

(** * Further properties of the order lookup *)

(** X10.  An order of the user that the lookup leaves out is no newer than
    any order it returns. *)
Theorem orders_of_newest (user : positive) (orders : list order) (o : order) :
  o ∈ orders ->
  user_id o = user ->
  o ∈ orders_of user orders
  \/ Forall (fun r => (created_at o <= created_at r)%Z) (orders_of user orders).
Proof.
  intros Hin Hu. unfold orders_of.
  set (sorted := merge_sort newest_first _).
  assert (Hs : StronglySorted newest_first sorted).
  { apply StronglySorted_merge_sort; apply _. }
  assert (Ho : o ∈ sorted).
  { unfold sorted. rewrite (merge_sort_Permutation newest_first).
    apply list_elem_of_filter. done. }
  rewrite <- (take_drop 50 sorted) in Hs, Ho.
  apply elem_of_app in Ho. destruct Ho as [Ho|Ho]; [left; exact Ho|].
  right. apply Forall_forall. intros r Hr.
  exact (StronglySorted_app_1_elem_of _ _ _ _ _ Hs Hr Ho).
Qed.

Lemma orders_of_short (user : positive) (orders : list order) :
  length (filter (fun o => user_id o = user) orders) <= 50 ->
  orders_of user orders ≡ₚ filter (fun o => user_id o = user) orders.
Proof.
  intros Hlen. unfold orders_of.
  rewrite take_ge.
  - apply merge_sort_Permutation.
  - rewrite (merge_sort_Permutation newest_first). exact Hlen.
Qed.

(** X11.  When the user has at most 50 orders, the lookup returns all of
    them, each once, and nothing else. *)
Theorem orders_of_all (user : positive) (orders : list order) :
  length (filter (fun o => user_id o = user) orders) <= 50 ->
  orders_of user orders ≡ₚ filter (fun o => user_id o = user) orders
  /\ forall o, o ∈ orders -> user_id o = user -> o ∈ orders_of user orders.
Proof.
  intros Hlen. split; [exact (orders_of_short user orders Hlen)|].
  intros o Hin Hu. rewrite (orders_of_short user orders Hlen).
  apply list_elem_of_filter. done.
Qed.

(** X12.  An order the confirmation handler stores for a user changes no
    other user's lookup, and it shows in the user's own lookup when the user
    had fewer than 50 orders before. *)
Theorem persisted_order_lookup (runtime_ToNumber : value -> float)
    (runtime_join : list value -> bool)
    (BOOKS_MAP_CACHE : gmap positive book)
    (pg_text : value -> option string)
    (pg_integer_text : value -> option float)
    (toss_confirm : value -> value -> value -> fetch_result)
    (user : positive) (req_body : value) (pg : insert_result)
    (orders : list order) (o : order) :
  (payments_confirm runtime_ToNumber runtime_join BOOKS_MAP_CACHE
     pg_text pg_integer_text toss_confirm
     user req_body pg orders).1 = orders ++ [o] ->
  (forall other, other <> user ->
     get_orders other true (orders ++ [o]) = get_orders other true orders)
  /\ (length (filter (fun r => user_id r = user) orders) < 50 ->
      o ∈ orders_of user (orders ++ [o])).
Proof.
  intros Hadd.
  assert (Hu : user_id o = user).
  { destruct (payments_confirm_inv runtime_ToNumber runtime_join
                BOOKS_MAP_CACHE pg_text pg_integer_text
                toss_confirm user req_body pg orders)
      as [Hsame|(o' & total & code & tossResult & new_id & now
                 & Hadd' & _ & _ & _ & _ & _ & Hrow)].
    - rewrite Hsame in Hadd. apply (f_equal length) in Hadd.
      rewrite length_app in Hadd. simpl in Hadd. lia.
    - rewrite Hadd' in Hadd. apply app_inv_head in Hadd.
      injection Hadd as <-.
      exact (proj1 (proj2 (orders_row_inv _ _ _ _ _ _ _ _ Hrow))). }
  split.
  - intros other Hne. unfold get_orders, orders_of.
    rewrite filter_app, filter_cons_False, filter_nil, app_nil_r by congruence.
    reflexivity.
  - intros Hlen.
    rewrite (orders_of_short user (orders ++ [o])).
    + apply list_elem_of_filter. split; [exact Hu|].
      apply elem_of_app. right. left.
    + rewrite filter_app, length_app, filter_cons_True by exact Hu.
      simpl. lia.
Qed.

(** * Properties of the authentication middleware *)

Lemma split_space_no_space (s : string) :
  no_space s = true -> split_space s = [s].
Proof.
  induction s as [|c s IH]; simpl; [reflexivity|].
  intros H. apply andb_true_iff in H. destruct H as [Hc Hs].
  apply negb_true_iff in Hc. rewrite Hc, (IH Hs). reflexivity.
Qed.

Lemma split_space_field (w rest : string) :
  no_space w = true ->
  split_space (w +:+ String space rest) = w :: split_space rest.
Proof.
  induction w as [|c w IH]; simpl; intros H.
  - reflexivity.
  - apply andb_true_iff in H. destruct H as [Hc Hw].
    apply negb_true_iff in Hc. rewrite Hc, (IH Hw). reflexivity.
Qed.

Lemma field_space_not_empty (w rest : string) :
  String.eqb (w +:+ String space rest) "" = false.
Proof. destruct w; reflexivity. Qed.

Section AuthFacts.

Variable jwt_verify : string -> option value.

(** X13.  [authenticateToken] looks at the second space-separated field
    of the header only: the word before the first space (the scheme) and
    whatever follows a second space make no difference. *)
Theorem authenticateToken_second_field (w w' token rest : string) :
  no_space w = true ->
  no_space w' = true ->
  no_space token = true ->
  authenticateToken jwt_verify
    (Some (w +:+ String space (token +:+ String space rest)))
  = authenticateToken jwt_verify (Some (w' +:+ String space token)).
Proof.
  intros Hw Hw' Ht. unfold authenticateToken.
  rewrite !field_space_not_empty.
  rewrite (split_space_field w _ Hw), (split_space_field token _ Ht).
  rewrite (split_space_field w' _ Hw'), (split_space_no_space token Ht).
  reflexivity.
Qed.

(** X14.  A request passes the two middlewares of the admin routes exactly
    when its [authorization] header has a non-empty second field that
    [jwt.verify] accepts and the decoded payload has the role ['admin'];
    [req.user] is then that payload. *)
Theorem admin_gate_pass (authorization : option string) (user : value) :
  admin_gate jwt_verify authorization = Pass user
  <-> exists authHeader token,
        authorization = Some authHeader
        /\ split_space authHeader !! 1%nat = Some token
        /\ token <> ""
        /\ jwt_verify token = Some user
        /\ prop user "role" = VStr "admin".
Proof.
  unfold admin_gate, authenticateToken. split.
  - destruct authorization as [authHeader|]; [|discriminate].
    destruct (String.eqb authHeader ""); [discriminate|].
    destruct (split_space authHeader !! 1%nat) as [token|] eqn:Hs; [|discriminate].
    destruct (String.eqb token "") eqn:Hne; [discriminate|].
    destruct (jwt_verify token) as [decoded|] eqn:Hv; [|discriminate].
    unfold requireAdmin. destruct (nullish decoded); [discriminate|].
    destruct (prop decoded "role") as [| | | |role| |] eqn:Hr; try discriminate.
    destruct (String.eqb role "admin") eqn:Hadmin; [|discriminate].
    intros [= <-]. exists authHeader, token.
    apply String.eqb_eq in Hadmin. subst role.
    apply String.eqb_neq in Hne. done.
  - intros (authHeader & token & -> & Hs & Hne & Hv & Hr).
    assert (Hh : String.eqb authHeader "" = false).
    { destruct authHeader; [discriminate Hs|reflexivity]. }
    apply String.eqb_neq in Hne.
    rewrite Hh, Hs, Hne, Hv. unfold requireAdmin.
    assert (Hnn : nullish user = false).
    { destruct user; try discriminate Hr; reflexivity. }
    rewrite Hnn, Hr. reflexivity.
Qed.

End AuthFacts.

(** * Properties of the password check *)

Module PasswordFacts.

Import Password.

Lemma test_chars (class : Ascii.ascii -> bool) (s : string) :
  test class s = true <-> exists c, c ∈ chars s /\ class c = true.
Proof.
  induction s as [|a s IH]; simpl.
  - split; [discriminate|]. intros (c & Hc & _). inversion Hc.
  - rewrite orb_true_iff, IH. split.
    + intros [Ha|(c & Hc & Hcl)].
      * exists a. split; [left|exact Ha].
      * exists c. split; [right; exact Hc|exact Hcl].
    + intros (c & Hc & Hcl). apply elem_of_cons in Hc.
      destruct Hc as [->|Hc]; [left; exact Hcl|right; exists c; done].
Qed.

Lemma test_app (class : Ascii.ascii -> bool) (s t : string) :
  test class (s +:+ t) = test class s || test class t.
Proof.
  induction s as [|a s IH]; simpl; [reflexivity|].
  rewrite IH, orb_assoc. reflexivity.
Qed.

Lemma length_utf16_app (s t : string) :
  length_utf16 (s +:+ t) = length_utf16 s + length_utf16 t.
Proof. induction s as [|a s IH]; simpl; [reflexivity|]. rewrite IH. lia. Qed.

Section StrengthFacts.

Variable runtime_ToNumber : value -> float.
Variable runtime_join : list value -> bool.
Variable runtime_ToString : value -> string.

Abbreviation validatePasswordStrength :=
  (validatePasswordStrength runtime_ToNumber runtime_join runtime_ToString).

(** X15.  For a password that is a string the check returns a result,
    which is valid exactly when the string has at least 8 UTF-16 code units,
    an ASCII upper-case letter, an ASCII digit and one of the listed special
    characters; a lower-case letter is not asked for.  Otherwise the error
    is the first of these four requirements that fails. *)
Theorem validatePasswordStrength_string (s : string) :
  let long := 8 <= length_utf16 s in
  let has class := exists c, c ∈ chars s /\ class c = true in
  exists r,
    validatePasswordStrength (VStr s) = Normal r
    /\ (valid r = true <-> long /\ has upper /\ has digit /\ has special)
    /\ (error r = Some TooShort <-> ~ long)
    /\ (error r = Some NoUpperCase <-> long /\ ~ has upper)
    /\ (error r = Some NoNumber <-> long /\ has upper /\ ~ has digit)
    /\ (error r = Some NoSpecial
        <-> long /\ has upper /\ has digit /\ ~ has special).
Proof.
  cbv zeta. unfold validatePasswordStrength, ToString, too_short, nullish.
  cbn [convertible negb]. cbv beta iota.
  pose proof (test_chars upper s) as Hu.
  pose proof (test_chars digit s) as Hd.
  pose proof (test_chars special s) as Hs.
  destruct (length_utf16 s <? 8) eqn:Hlen.
  - apply Nat.ltb_lt in Hlen.
    eexists. split; [reflexivity|]. simpl.
    repeat split; try discriminate; try lia; intros H; try (exfalso; lia).
    all: destruct H; lia.
  - apply Nat.ltb_ge in Hlen.
    destruct (test upper s), (test digit s), (test special s);
      (eexists; split; [reflexivity|]); simpl;
      rewrite <- Hu, <- Hd, <- Hs;
      intuition (discriminate || lia || congruence).
Qed.

(** X16.  A valid string password stays valid when any text is appended
    to it: there is no upper bound on the length and no forbidden
    character. *)
Theorem validatePasswordStrength_append (s t : string) :
  validatePasswordStrength (VStr s)
    = Normal {| valid := true; error := None |} ->
  validatePasswordStrength (VStr (s +:+ t))
    = Normal {| valid := true; error := None |}.
Proof.
  unfold validatePasswordStrength. simpl.
  rewrite !test_app, length_utf16_app.
  destruct (length_utf16 s <? 8) eqn:Hlen; [discriminate|].
  apply Nat.ltb_ge in Hlen.
  assert (Hlen' : (length_utf16 s + length_utf16 t <? 8) = false)
    by (apply Nat.ltb_ge; lia).
  rewrite Hlen'.
  destruct (test upper s); [|discriminate].
  destruct (test digit s); [|discriminate].
  destruct (test special s); [|discriminate].
  reflexivity.
Qed.

End StrengthFacts.

End PasswordFacts.

(** * Properties of the administration handlers *)

Lemma includes_spec (l : list string) (v : value) :
  includes l v = true <-> exists s, v = VStr s /\ s ∈ l.
Proof.
  destruct v; simpl; try (split; [discriminate|intros (s0 & [=] & _)]).
  rewrite bool_decide_eq_true. split.
  - intros H. eexists. done.
  - intros (s0 & [= <-] & H). exact H.
Qed.

(** With ids that are a key of the table, the refreshed map holds under
    an id exactly the active row of the table with that id. *)
Lemma refreshBooksCache_lookup_iff (table : list book) (q : positive)
    (b : book) :
  NoDup (book_id <$> table) ->
  (refreshBooksCache table).2 !! q = Some b
  <-> b ∈ table /\ is_active b = true /\ book_id b = q.
Proof.
  intros Hnd. split; [apply refreshBooksCache_lookup|].
  intros (Hin & Hact & <-).
  unfold refreshBooksCache, Map_of_rows. simpl.
  apply Map_of_rows_found.
  - rewrite (merge_sort_Permutation by_id).
    apply (sublist_NoDup _ (book_id <$> table)); [exact Hnd|].
    apply fmap_sublist, sublist_filter.
  - rewrite (merge_sort_Permutation by_id).
    apply list_elem_of_filter. done.
Qed.

(** The validator on a line that names an id without an active row. *)
Lemma validate_inactive (runtime_ToNumber : value -> float)
    (runtime_join : list value -> bool)
    (table : list book) (pre : list value) (lines : list (float * float))
    (item : value) (post : list value) (x : float) (p : positive)
    (expectedTotal : value) :
  Forall2 (confirmed_line (refreshBooksCache table).2) pre lines ->
  prop item "bookId" = VNum x ->
  Number.to_Z x = Some (Zpos p) ->
  (forall b, b ∈ table -> book_id b = p -> is_active b = false) ->
  quantity_passes runtime_ToNumber runtime_join (prop item "quantity") ->
  validatePaymentAmount runtime_ToNumber runtime_join
    (refreshBooksCache table).2
    (VArr (pre ++ item :: post)) expectedTotal =
    Normal (rejected (NoSuchProduct (VNum x))).
Proof.
  intros Hpre Hid Hx Hinactive [Hq Hle].
  assert (Hnone : (refreshBooksCache table).2 !! p = None).
  { destruct ((refreshBooksCache table).2 !! p) as [b|] eqn:Hb; [|reflexivity].
    destruct (refreshBooksCache_lookup _ _ _ Hb) as (Hin & Hact & Hp).
    rewrite (Hinactive b Hin Hp) in Hact. discriminate Hact. }
  assert (Hget : Map_get (refreshBooksCache table).2 (VNum x) = None).
  { unfold Map_get. rewrite Hx. exact Hnone. }
  assert (Htruthy : truthy (VNum x) = true).
  { simpl. rewrite (NumberFacts.to_Z_nonzero_truthy x (Z.pos p) Hx); done. }
  assert (Hnn : nullish item = false).
  { destruct item; try discriminate Hid; reflexivity. }
  apply (validatePaymentAmount_rejected_at _ _ _ pre lines); [exact Hpre|].
  intros s. unfold check_item.
  rewrite Hnn, Hid, Htruthy, Hq. cbn [negb orb]. rewrite Hle, Hget.
  reflexivity.
Qed.

Section AdminFacts.

Variable parseInt : string -> float.

Abbreviation orders_status := (orders_status parseInt).
Abbreviation books_delete := (books_delete parseInt).

(** X17.  [PATCH /api/admin/orders/:id/status] either answers with a status
    other than 200 and leaves the [orders] table as it was, or answers 200:
    then the requested status is one of the five allowed strings, the id
    names a stored order, whose id, order id and new status the response
    reports, and the table is the old one with the status of the rows of
    that id replaced, every other row and every other column as before. *)
Theorem orders_status_outcome (id_param : string) (req_body : value)
    (query_ok : bool) (orders : list order) :
  let result := orders_status id_param req_body query_ok orders in
  (result.1 = orders /\ admin_status result.2 <> 200%Z)
  \/ exists row_id new_status,
       admin_status result.2 = 200%Z
       /\ pg_integer (parseInt id_param) = Some (Zpos row_id)
       /\ prop req_body "status" = VStr new_status
       /\ new_status ∈ allowedStatuses
       /\ (exists o, o ∈ orders /\ id o = row_id
                     /\ admin_body result.2
                        = StatusChanged row_id (order_id o) (VStr new_status))
       /\ result.1 =
            (fun o => if decide (id o = row_id)
                      then set_status (VStr new_status) o else o) <$> orders.
Proof.
  cbv zeta. unfold orders_status.
  destruct (nullish req_body); [left; done|].
  destruct (truthy (prop req_body "status")); [|left; done].
  destruct (includes allowedStatuses (prop req_body "status")) eqn:Hinc;
    [|left; done].
  apply includes_spec in Hinc. destruct Hinc as (new_status & Hs & Hallowed).
  simpl negb. cbv iota. rewrite orb_false_l.
  destruct query_ok; [|left; done]. simpl negb. cbv iota.
  destruct (pg_integer (parseInt id_param)) as [z|] eqn:Hz; [|left; done].
  destruct (filter (fun o => Zpos (id o) = z) orders) as [|row rows] eqn:Hf;
    [left; done|].
  assert (Hrow : row ∈ filter (fun o => Zpos (id o) = z) orders)
    by (rewrite Hf; left).
  apply list_elem_of_filter in Hrow. destruct Hrow as [Hid Hin]. subst z.
  right. exists (id row), new_status. rewrite Hs. simpl.
  repeat split; try done.
  - exists row. done.
  - apply list_fmap_ext. intros i o _.
    destruct (decide (Zpos (id o) = Zpos (id row))) as [Heq|Hne];
      destruct (decide (id o = id row)) as [Heq'|Hne']; congruence.
Qed.

(** The table after the handler: the old one, or the old one with an
    allowed status written to the rows of one id. *)
Lemma orders_status_table (id_param : string) (req_body : value)
    (query_ok : bool) (orders : list order) :
  (orders_status id_param req_body query_ok orders).1 = orders
  \/ exists z new_status,
       new_status ∈ allowedStatuses
       /\ (orders_status id_param req_body query_ok orders).1 =
            (fun o => if decide (Zpos (id o) = z)
                      then set_status (VStr new_status) o else o) <$> orders.
Proof.
  unfold orders_status.
  destruct (nullish req_body); [left; done|].
  destruct (truthy (prop req_body "status")); [|left; done].
  destruct (includes allowedStatuses (prop req_body "status")) eqn:Hinc;
    [|left; done].
  apply includes_spec in Hinc. destruct Hinc as (new_status & -> & Hallowed).
  simpl negb. cbv iota. rewrite orb_false_l.
  destruct query_ok; [|left; done]. simpl negb. cbv iota.
  destruct (pg_integer (parseInt id_param)) as [z|]; [|left; done].
  destruct (filter _ orders); [left; done|].
  right. exists z, new_status. done.
Qed.

(** X18.  When every stored order has one of the five allowed statuses,
    the same holds after [PATCH /api/admin/orders/:id/status], whatever the
    request. *)
Theorem orders_status_keeps_allowed (id_param : string) (req_body : value)
    (query_ok : bool) (orders : list order) :
  Forall status_allowed orders ->
  Forall status_allowed (orders_status id_param req_body query_ok orders).1.
Proof.
  intros Hall.
  destruct (orders_status_table id_param req_body query_ok orders)
    as [->|(z & new_status & Hallowed & ->)]; [exact Hall|].
  apply Forall_fmap. apply (Forall_impl _ _ _ Hall). intros o Ho.
  simpl. destruct (decide (Zpos (id o) = z)); [|exact Ho].
  unfold status_allowed. simpl. apply bool_decide_eq_true. exact Hallowed.
Qed.

(** X19.  No transition between statuses is refused: for a stored order
    and any of the five allowed statuses, the database answering, the change
    is made and answered 200, whatever status the order had. *)
Theorem orders_status_any_transition (id_param : string) (req_body : value)
    (orders : list order) (o : order) (new_status : string) :
  o ∈ orders ->
  pg_integer (parseInt id_param) = Some (Zpos (id o)) ->
  prop req_body "status" = VStr new_status ->
  new_status ∈ allowedStatuses ->
  admin_status (orders_status id_param req_body true orders).2 = 200%Z
  /\ set_status (VStr new_status) o
     ∈ (orders_status id_param req_body true orders).1.
Proof.
  intros Hin Hz Hs Hallowed. unfold orders_status.
  assert (Hnn : nullish req_body = false).
  { destruct req_body; try discriminate Hs; reflexivity. }
  assert (Htruthy : truthy (VStr new_status) = true).
  { unfold allowedStatuses in Hallowed.
    repeat (apply elem_of_cons in Hallowed;
            destruct Hallowed as [->|Hallowed]; [reflexivity|]).
    inversion Hallowed. }
  assert (Hinc : includes allowedStatuses (VStr new_status) = true).
  { apply includes_spec. exists new_status. done. }
  rewrite Hnn, Hs, Htruthy, Hinc, Hz. simpl negb. cbv iota.
  destruct (filter (fun o0 => Zpos (id o0) = Zpos (id o)) orders)
    as [|row rows] eqn:Hf.
  - exfalso. assert (Ho : o ∈ filter (fun o0 => Zpos (id o0) = Zpos (id o)) orders)
      by (apply list_elem_of_filter; done).
    rewrite Hf in Ho. inversion Ho.
  - simpl. split; [reflexivity|].
    apply (list_elem_of_fmap_2' _ _ o); [exact Hin|].
    destruct (decide (Zpos (id o) = Zpos (id o))); [reflexivity|done].
Qed.

(** The [books] table after a deactivation of the rows of [z]. *)
Lemma deactivated_rows (z : Z) (table : list book) (b : book) :
  b ∈ (fun b => if decide (Zpos (book_id b) = z) then deactivate b else b)
        <$> table ->
  (Zpos (book_id b) = z /\ is_active b = false)
  \/ (Zpos (book_id b) <> z /\ b ∈ table).
Proof.
  intros Hin. apply list_elem_of_fmap in Hin. destruct Hin as (b0 & -> & Hin).
  destruct (decide (Zpos (book_id b0) = z)) as [Heq|Hne]; [left|right]; done.
Qed.

(** X20.  When [DELETE /api/admin/books/:id] answers 200, the id names a
    product; every row of that id is inactive in the table; the product is
    gone from the list [GET /api/books] serves and from [BOOKS_MAP_CACHE];
    and the validator rejects a line that names it with the "does not exist"
    reason, when the line follows confirmed lines and its quantity passes the
    quantity check. *)
Theorem books_delete_hides_product (id_param : string)
    (update_ok refresh_ok : bool) (c : catalog) :
  let result := books_delete id_param update_ok refresh_ok c in
  admin_status result.2 = 200%Z ->
  exists p,
    pg_integer (parseInt id_param) = Some (Zpos p)
    /\ (forall b, b ∈ books result.1 -> book_id b = p -> is_active b = false)
    /\ (forall b, b ∈ get_books result.1 -> book_id b <> p)
    /\ BOOKS_MAP_CACHE result.1 !! p = None
    /\ forall runtime_ToNumber runtime_join pre lines item post x
               expectedTotal,
         Forall2 (confirmed_line (BOOKS_MAP_CACHE result.1)) pre lines ->
         prop item "bookId" = VNum x ->
         Number.to_Z x = Some (Zpos p) ->
         quantity_passes runtime_ToNumber runtime_join
           (prop item "quantity") ->
         validatePaymentAmount runtime_ToNumber runtime_join
           (BOOKS_MAP_CACHE result.1)
           (VArr (pre ++ item :: post)) expectedTotal =
           Normal (rejected (NoSuchProduct (VNum x))).
Proof.
  cbv zeta. unfold books_delete.
  destruct update_ok; [|discriminate]. simpl negb. cbv iota.
  destruct (pg_integer (parseInt id_param)) as [z|] eqn:Hz; [|discriminate].
  destruct (filter (fun b => Zpos (book_id b) = z) (books c))
    as [|row rows] eqn:Hf; [discriminate|].
  destruct refresh_ok; [|discriminate]. simpl. intros _.
  assert (Hrow : row ∈ filter (fun b => Zpos (book_id b) = z) (books c))
    by (rewrite Hf; left).
  apply list_elem_of_filter in Hrow. destruct Hrow as [Hid _]. subst z.
  set (updated := (fun b => if decide (Zpos (book_id b) = Zpos (book_id row))
                            then deactivate b else b) <$> books c).
  assert (Hinactive : forall b, b ∈ updated -> book_id b = book_id row ->
                                is_active b = false).
  { intros b Hb Hp. destruct (deactivated_rows _ _ _ Hb) as [[_ H]|[H _]];
      [exact H|congruence]. }
  exists (book_id row). split; [reflexivity|]. split; [exact Hinactive|].
  split; [|split].
  - intros b Hb Hp. unfold get_books in Hb. simpl in Hb.
    rewrite (merge_sort_Permutation by_id) in Hb.
    apply list_elem_of_filter in Hb. destruct Hb as [Hact Hb].
    rewrite (Hinactive b Hb Hp) in Hact. discriminate Hact.
  - assert (Hnone : (refreshBooksCache updated).2 !! book_id row = None);
      [|exact Hnone].
    destruct ((refreshBooksCache updated).2 !! book_id row) as [b|] eqn:Hb;
      [|reflexivity].
    destruct (refreshBooksCache_lookup _ _ _ Hb) as (Hin & Hact & Hp).
    rewrite (Hinactive b Hin Hp) in Hact. discriminate Hact.
  - intros runtime_ToNumber runtime_join pre lines item post x expectedTotal
      Hpre Hb Hx Hq.
    exact (validate_inactive runtime_ToNumber runtime_join updated pre lines
             item post x (book_id row) expectedTotal Hpre Hb Hx Hinactive Hq).
Qed.

(** X21.  When the ids of the [books] table are distinct and
    [BOOKS_MAP_CACHE] is the map of the last refresh of the table, a
    [DELETE /api/admin/books/:id] that answers 200 leaves the cache entry of
    every other product as it was. *)
Theorem books_delete_keeps_others (id_param : string)
    (update_ok refresh_ok : bool) (c : catalog) :
  NoDup (book_id <$> books c) ->
  BOOKS_MAP_CACHE c = (refreshBooksCache (books c)).2 ->
  let result := books_delete id_param update_ok refresh_ok c in
  admin_status result.2 = 200%Z ->
  exists p,
    pg_integer (parseInt id_param) = Some (Zpos p)
    /\ forall q, q <> p ->
         BOOKS_MAP_CACHE result.1 !! q = BOOKS_MAP_CACHE c !! q.
Proof.
  intros Hnd Hfresh. cbv zeta. unfold books_delete.
  destruct update_ok; [|discriminate]. simpl negb. cbv iota.
  destruct (pg_integer (parseInt id_param)) as [z|] eqn:Hz; [|discriminate].
  destruct (filter (fun b => Zpos (book_id b) = z) (books c))
    as [|row rows] eqn:Hf; [discriminate|].
  destruct refresh_ok; [|discriminate]. simpl. intros _.
  assert (Hrow : row ∈ filter (fun b => Zpos (book_id b) = z) (books c))
    by (rewrite Hf; left).
  apply list_elem_of_filter in Hrow. destruct Hrow as [Hid _]. subst z.
  set (f := fun b => if decide (Zpos (book_id b) = Zpos (book_id row))
                     then deactivate b else b).
  assert (Hids : book_id <$> (f <$> books c) = book_id <$> books c).
  { rewrite <- list_fmap_compose. apply list_fmap_ext. intros i b _.
    unfold f. simpl. destruct (decide _); reflexivity. }
  assert (Hnd' : NoDup (book_id <$> (f <$> books c))) by (rewrite Hids; exact Hnd).
  exists (book_id row). split; [reflexivity|]. intros q Hq. rewrite Hfresh.
  apply option_eq. intros b.
  rewrite (refreshBooksCache_lookup_iff _ q b Hnd').
  rewrite (refreshBooksCache_lookup_iff _ q b Hnd).
  split.
  - intros (Hin & Hact & Hb).
    destruct (deactivated_rows _ _ _ Hin) as [[H _]|[_ H]]; [congruence|done].
  - intros (Hin & Hact & Hb). split; [|done].
    apply (list_elem_of_fmap_2' _ _ b); [exact Hin|].
    unfold f. destruct (decide _) as [Heq|]; [congruence|reflexivity].
Qed.

End AdminFacts.

(** * Properties of the account handlers *)

Module UsersFacts.

Import Users.

Section HandlersFacts.

Variable runtime_ToNumber : value -> float.
Variable runtime_join : list value -> bool.
Variable runtime_ToString : value -> string.
Variable isEmail : string -> bool.
Variable pg_text : value -> option string.
Variable bcrypt_compare : string -> string -> bool.
Variable jwt_sign : positive -> string -> string -> string.

Abbreviation register :=
  (register runtime_ToNumber runtime_join runtime_ToString isEmail pg_text).
Abbreviation login := (login pg_text bcrypt_compare jwt_sign).

(** X22.  [POST /api/register] either answers with a status other than
    201 and leaves [app_users] as it was, or answers 201 and adds one row
    at the end: then the email is a string that [validator.isEmail]
    accepts, the password is a string that passes the strength check, no
    stored user had that email, and the new row holds the email, the hash
    that [bcrypt.hash] gave and the role ['user']. *)
Theorem register_outcome (req_body : value) (select_ok : bool)
    (hashedPassword : string) (pg : insert_result) (users : list app_user) :
  let result := register req_body select_ok hashedPassword pg users in
  (result.1 = users /\ http_status result.2 <> 201%Z)
  \/ exists address secret text new_id now,
       prop req_body "email" = VStr address
       /\ isEmail address = true
       /\ prop req_body "password" = VStr secret
       /\ Password.validatePasswordStrength runtime_ToNumber runtime_join
            runtime_ToString (VStr secret)
          = Normal {| Password.valid := true; Password.error := None |}
       /\ pg_text (VStr address) = Some text
       /\ (forall u, u ∈ users -> email u <> text)
       /\ pg = Inserted new_id now
       /\ result.1 = users ++ [ {| id := new_id; email := text;
                                   password := hashedPassword;
                                   role := Some "user";
                                   created_at := now |} ]
       /\ result.2 = {| http_status := 201;
                        body := Registered new_id text |}.
Proof.
  cbv zeta. unfold register.
  destruct (nullish req_body); [left; done|].
  destruct (_ || _); [left; done|].
  destruct (prop req_body "email") as [| | | |address| |]; try (left; done).
  destruct (isEmail address) eqn:Hmail; [|left; done]. simpl negb. cbv iota.
  destruct (Password.validatePasswordStrength _ _ _ _) as [check|] eqn:Hcheck;
    [|left; done].
  destruct (Password.valid check) eqn:Hvalid; [|left; done].
  simpl negb. cbv iota.
  destruct select_ok; [|left; done]. simpl negb. cbv iota.
  destruct (pg_text (VStr address)) as [text|] eqn:Htext; [|left; done].
  destruct (filter (fun u => email u = text) users) as [|u0 us] eqn:Hf;
    [|left; done].
  destruct (prop req_body "password") as [| | | |secret| |]; try (left; done).
  destruct pg as [|new_id now]; [left; done|].
  right. exists address, secret, text, new_id, now.
  repeat split; try done.
  - rewrite Hcheck. f_equal.
    unfold Password.validatePasswordStrength in Hcheck.
    cbn [convertible negb nullish Password.too_short] in Hcheck.
    repeat (case_head Hcheck; try discriminate Hcheck).
    all: injection Hcheck as <-; try discriminate Hvalid; reflexivity.
  - intros u Hu Heq.
    assert (Hin : u ∈ filter (fun u => email u = text) users)
      by (apply list_elem_of_filter; done).
    rewrite Hf in Hin. inversion Hin.
Qed.

(** The table after a registration: the old one, with an answer other
    than 201, or the old one with one row of a new email behind it. *)
Lemma register_table (req_body : value) (select_ok : bool)
    (hashedPassword : string) (pg : insert_result) (users : list app_user) :
  ((register req_body select_ok hashedPassword pg users).1 = users
   /\ http_status (register req_body select_ok hashedPassword pg users).2
      <> 201%Z)
  \/ exists u,
       (register req_body select_ok hashedPassword pg users).1 = users ++ [u]
       /\ filter (fun v => email v = email u) users = []
       /\ nullish req_body = false
       /\ truthy (prop req_body "email") = true
       /\ truthy (prop req_body "password") = true
       /\ pg_text (prop req_body "email") = Some (email u)
       /\ password u = hashedPassword
       /\ role u = Some "user"
       /\ (register req_body select_ok hashedPassword pg users).2
          = {| http_status := 201; body := Registered (id u) (email u) |}.
Proof.
  unfold register.
  destruct (nullish req_body); [left; done|].
  destruct (truthy (prop req_body "email")); [|left; done].
  destruct (truthy (prop req_body "password")); [|left; done].
  simpl negb. simpl orb. cbv iota.
  destruct (prop req_body "email") as [| | | |address| |]; try (left; done).
  destruct (isEmail address); [|left; done]. simpl negb. cbv iota.
  destruct (Password.validatePasswordStrength _ _ _ _) as [check|];
    [|left; done].
  destruct (Password.valid check); [|left; done]. simpl negb. cbv iota.
  destruct select_ok; [|left; done]. simpl negb. cbv iota.
  destruct (pg_text (VStr address)) as [text|] eqn:Htext; [|left; done].
  destruct (filter (fun u => email u = text) users) as [|u0 us] eqn:Hf;
    [|left; done].
  destruct (prop req_body "password") as [| | | |secret| |]; try (left; done).
  destruct pg as [|new_id now]; [left; done|].
  right. eexists. split; [reflexivity|]. simpl. repeat split; done.
Qed.

(** X23.  When no two stored users share an email, no two do after
    [POST /api/register], whatever the request. *)
Theorem register_keeps_unique (req_body : value) (select_ok : bool)
    (hashedPassword : string) (pg : insert_result) (users : list app_user) :
  NoDup (email <$> users) ->
  NoDup (email <$> (register req_body select_ok hashedPassword pg users).1).
Proof.
  intros Hnd.
  destruct (register_table req_body select_ok hashedPassword pg users)
    as [[-> _]|(u & -> & Hnew & _)]; [exact Hnd|].
  rewrite fmap_app. apply NoDup_app. split; [exact Hnd|]. split.
  - intros e He Hu. apply list_elem_of_fmap in He.
    destruct He as (v & -> & Hv).
    apply list_elem_of_singleton in Hu.
    assert (Hin : v ∈ filter (fun v => email v = email u) users)
      by (apply list_elem_of_filter; done).
    rewrite Hnew in Hin. inversion Hin.
  - apply NoDup_singleton.
Qed.

(** X24.  [POST /api/login] answers an email that no stored user has
    with 401 and the message for wrong credentials, whatever the password;
    a wrong password that is a string gets the very same answer for a stored
    email, so the two are not told apart; a password that is no string
    gets 500 for a stored email, [bcrypt.compare] refusing it, and this
    tells a stored email from an unknown one. *)
Theorem login_bad_credentials (req_body : value) (users : list app_user)
    (text : string) :
  truthy (prop req_body "email") = true ->
  truthy (prop req_body "password") = true ->
  pg_text (prop req_body "email") = Some text ->
  ((forall u, u ∈ users -> email u <> text) ->
   login req_body true users = failure 401 BadCredentials)
  /\ (forall u rest secret,
        filter (fun u => email u = text) users = u :: rest ->
        prop req_body "password" = VStr secret ->
        bcrypt_compare secret (password u) = false ->
        login req_body true users = failure 401 BadCredentials)
  /\ (forall u rest,
        filter (fun u => email u = text) users = u :: rest ->
        (forall secret, prop req_body "password" <> VStr secret) ->
        login req_body true users = failure 500 ServerError).
Proof.
  intros He Hp Htext. unfold login.
  assert (Hnn : nullish req_body = false).
  { destruct req_body; try discriminate He; reflexivity. }
  rewrite Hnn, He, Hp, Htext. simpl negb. cbv iota.
  split; [|split].
  - intros Hnone.
    destruct (filter (fun u => email u = text) users) as [|u us] eqn:Hf;
      [reflexivity|].
    assert (Hu : u ∈ filter (fun u => email u = text) users)
      by (rewrite Hf; left).
    apply list_elem_of_filter in Hu. destruct Hu as [Hmail Hin].
    exfalso. exact (Hnone u Hin Hmail).
  - intros u rest secret -> -> ->. reflexivity.
  - intros u rest -> Hno.
    destruct (prop req_body "password") as [| | | |secret| |];
      try reflexivity.
    exfalso. exact (Hno secret eq_refl).
Qed.

(** X25.  After a registration that is answered 201, a login with the same
    body is answered 200 for the user just stored, with the role ['user'],
    provided [bcrypt.compare] accepts the password against the hash that
    [bcrypt.hash] gave. *)
Theorem register_then_login (req_body : value) (select_ok : bool)
    (hashedPassword : string) (pg : insert_result) (users : list app_user)
    (new_id : positive) (text secret : string) :
  (register req_body select_ok hashedPassword pg users).2
    = {| http_status := 201; body := Registered new_id text |} ->
  prop req_body "password" = VStr secret ->
  bcrypt_compare secret hashedPassword = true ->
  login req_body true
    (register req_body select_ok hashedPassword pg users).1
  = {| http_status := 200;
       body := LoggedIn (jwt_sign new_id text "user") new_id text "user" |}.
Proof.
  intros Hresp Hsecret Hcompare.
  destruct (register_table req_body select_ok hashedPassword pg users)
    as [[_ Hnot]|(u & -> & Hnew & Hnn & He & Hp & Htext & Hhash & Hrole
                  & Hresp')].
  - rewrite Hresp in Hnot. exfalso. apply Hnot. reflexivity.
  - rewrite Hresp in Hresp'. injection Hresp' as Hid Hmail.
    unfold login. rewrite Hnn, He, Hp, Htext. simpl negb. cbv iota.
    rewrite filter_app, Hnew. simpl app.
    rewrite filter_cons_True by reflexivity.
    rewrite Hsecret, Hhash, Hcompare. simpl negb. cbv iota.
    unfold role_or_user. rewrite Hrole. simpl.
    rewrite <- Hid, <- Hmail. reflexivity.
Qed.

End HandlersFacts.

End UsersFacts.

(** * Further runs on sample data *)

Lemma invalid_item_rejected_witness :
  Sample.validate
    (VArr ([] ++ Sample.line (VNum 1) (VNum (-1)) (VNum 45000) :: []))
    (VNum (-45000))
  = Normal (rejected InvalidItem).
Proof.
  apply (invalid_item_rejected Sample.runtime_ToNumber Sample.runtime_join
           Sample.BOOKS_MAP_CACHE
           [] [] (Sample.line (VNum 1) (VNum (-1)) (VNum 45000)) []
           (VNum (-45000))).
  - constructor.
  - reflexivity.
  - right. right. reflexivity.
Defined.

Lemma valid_sound_witness :
  exists item rest lines,
    Sample.one_book = VArr (item :: rest)
    /\ Forall2 (accepted_line Sample.runtime_ToNumber Sample.runtime_join
           Sample.BOOKS_MAP_CACHE)
         (item :: rest) lines
    /\ strict_eq (VNum (subtotal lines + shippingFee (subtotal lines)))
         (VNum 45000) = true
    /\ {| valid := true; error := None;
          calculatedTotal := Some 45000%float |}
       = {| valid := true; error := None;
            calculatedTotal :=
              Some (subtotal lines + shippingFee (subtotal lines))%float |}.
Proof.
  apply (valid_sound Sample.runtime_ToNumber Sample.runtime_join
           Sample.BOOKS_MAP_CACHE
           Sample.one_book (VNum 45000)
           {| valid := true; error := None;
              calculatedTotal := Some 45000%float |});
    reflexivity.
Defined.

Lemma rejection_total_witness :
  let r := {| valid := false;
              error := Some (TotalMismatch 11100 (VNum 8100));
              calculatedTotal := Some 11100%float |} in
  (exists why, r = rejected why
               /\ forall total claimed, why <> TotalMismatch total claimed)
  \/ (exists total,
        r = {| valid := false;
               error := Some (TotalMismatch total (VNum 8100));
               calculatedTotal := Some total |}
        /\ strict_eq (VNum total) (VNum 8100) = false).
Proof.
  intros r.
  apply (rejection_total Sample.runtime_ToNumber Sample.runtime_join
           Sample.BOOKS_MAP_CACHE
           (VArr [Sample.line (VNum 3) (VNum 1) (VNum 8100)]) (VNum 8100) r);
    reflexivity.
Defined.

Lemma validatePaymentAmount_throws_witness :
  let item :=
    Sample.line (VNum 1) (VObj (list_to_map [("toString", VNum 0)]))
      (VNum 45000) in
  Sample.validate (VArr ([] ++ VNull :: [])) (VNum 45000) = Throw
  /\ Sample.validate (VArr ([] ++ item :: [])) (VNum 45000) = Throw.
Proof.
  intros item. split.
  - apply (proj1 (proj2 (validatePaymentAmount_throws Sample.runtime_ToNumber
                           Sample.runtime_join Sample.BOOKS_MAP_CACHE
                           (VArr ([] ++ VNull :: [])) (VNum 45000)))
             [] [] VNull []).
    + reflexivity.
    + constructor.
    + reflexivity.
  - apply (proj2 (proj2 (validatePaymentAmount_throws Sample.runtime_ToNumber
                           Sample.runtime_join Sample.BOOKS_MAP_CACHE
                           (VArr ([] ++ item :: [])) (VNum 45000)))
             [] [] item []).
    + reflexivity.
    + constructor.
    + reflexivity.
    + reflexivity.
    + reflexivity.
Defined.

Lemma refreshBooksCache_spec_witness :
  (refreshBooksCache Sample.books).2 !! 3%positive
  = Some {| book_id := 3; title := "Demian"; price := 8100;
            is_active := true |}.
Proof.
  refine (proj2 (proj2 (proj2 (refreshBooksCache_spec Sample.books))) _
            {| book_id := 3; title := "Demian"; price := 8100;
               is_active := true |} _).
  - apply (bool_decide_unpack (NoDup (book_id <$> Sample.books))).
    vm_compute. exact I.
  - vm_compute. repeat constructor.
Defined.

Lemma inactive_product_not_found_witness :
  validatePaymentAmount Sample.runtime_ToNumber Sample.runtime_join
    (refreshBooksCache Sample.books).2
    (VArr ([] ++ Sample.line (VNum 5) (VNum 1) (VNum 10800) :: []))
    (VNum 13800)
  = Normal (rejected (NoSuchProduct (VNum 5))).
Proof.
  apply (inactive_product_not_found Sample.runtime_ToNumber
           Sample.runtime_join Sample.books
           [] [] (Sample.line (VNum 5) (VNum 1) (VNum 10800)) []
           5%float 5%positive (VNum 13800)).
  - constructor.
  - reflexivity.
  - reflexivity.
  - intros b Hin Hid. unfold Sample.books in Hin.
    repeat (apply elem_of_cons in Hin; destruct Hin as [->|Hin]);
      try discriminate Hid; try reflexivity.
    inversion Hin.
  - split; reflexivity.
Defined.

Lemma rejected_request_ignores_provider_witness :
  let req_body := Sample.request (VNum 1000) Sample.one_book in
  Sample.confirm Sample.approve_amount 7%positive req_body (Inserted 4 400)
    Sample.orders
  = Sample.confirm Sample.refuse 7%positive req_body InsertFails
      Sample.orders
  /\ (Sample.confirm Sample.approve_amount 7%positive req_body
        (Inserted 4 400) Sample.orders).1 = Sample.orders.
Proof.
  intros req_body.
  apply (rejected_request_ignores_provider Sample.runtime_ToNumber
           Sample.runtime_join Sample.BOOKS_MAP_CACHE
           Sample.pg_text Sample.pg_integer_text
           Sample.approve_amount Sample.refuse
           7%positive req_body (Inserted 4 400) InsertFails Sample.orders).
  intros v Hv.
  assert (Hrun : validatePaymentAmount Sample.runtime_ToNumber
                   Sample.runtime_join Sample.BOOKS_MAP_CACHE (prop req_body "items")
                   (prop req_body "amount")
                 = Normal {| valid := false;
                             error := Some (TotalMismatch 45000 (VNum 1000));
                             calculatedTotal := Some 45000%float |})
    by reflexivity.
  rewrite Hrun in Hv. injection Hv as <-. reflexivity.
Defined.

Lemma validation_failure_response_witness :
  Sample.confirm Sample.approve_amount 7%positive
    (Sample.request (VNum 1000) Sample.one_book) (Inserted 4 400)
    Sample.orders
  = (Sample.orders,
     {| http_status := 400;
        body := ValidationError
                  (Some (TotalMismatch 45000 (VNum 1000))) |}).
Proof.
  refine (proj1 (validation_failure_response Sample.runtime_ToNumber
                   Sample.runtime_join Sample.BOOKS_MAP_CACHE
                   Sample.pg_text Sample.pg_integer_text
                   Sample.approve_amount 7%positive
                   (Sample.request (VNum 1000) Sample.one_book)
                   (Inserted 4 400) Sample.orders
                   (Sample.line (VNum 1) (VNum 1) (VNum 45000)) []
                   _ _ _ _)
            {| valid := false;
               error := Some (TotalMismatch 45000 (VNum 1000));
               calculatedTotal := Some 45000%float |} _ _);
    reflexivity.
Defined.

Lemma orders_of_newest_witness :
  Sample.stored 1 7 "a" 100 ∈ orders_of 7 Sample.orders
  \/ Forall (fun r => (100 <= created_at r)%Z) (orders_of 7 Sample.orders).
Proof.
  apply (orders_of_newest 7 Sample.orders (Sample.stored 1 7 "a" 100)).
  - left.
  - reflexivity.
Defined.

Lemma orders_of_all_witness :
  orders_of 7 Sample.orders
    ≡ₚ filter (fun o => user_id o = 7%positive) Sample.orders
  /\ forall o, o ∈ Sample.orders -> user_id o = 7%positive ->
               o ∈ orders_of 7 Sample.orders.
Proof.
  apply (orders_of_all 7 Sample.orders).
  vm_compute. lia.
Defined.

Lemma persisted_order_lookup_witness :
  exists o,
    (Sample.confirm Sample.approve_amount 7%positive
       (Sample.request (VNum 45000) Sample.one_book) (Inserted 4 400)
       Sample.orders).1 = Sample.orders ++ [o]
    /\ (forall other, other <> 7%positive ->
          get_orders other true (Sample.orders ++ [o])
          = get_orders other true Sample.orders)
    /\ (length (filter (fun r => user_id r = 7%positive) Sample.orders) < 50 ->
        o ∈ orders_of 7 (Sample.orders ++ [o])).
Proof.
  eexists. split; [reflexivity|].
  apply (persisted_order_lookup Sample.runtime_ToNumber Sample.runtime_join
           Sample.BOOKS_MAP_CACHE Sample.pg_text Sample.pg_integer_text
           Sample.approve_amount 7%positive
           (Sample.request (VNum 45000) Sample.one_book) (Inserted 4 400)
           Sample.orders).
  reflexivity.
Defined.

Lemma authenticateToken_second_field_witness :
  authenticateToken SampleAdmin.jwt_verify
    (Some ("Bearer" +:+ String space ("admin-token" +:+ String space "x")))
  = authenticateToken SampleAdmin.jwt_verify
      (Some ("Token" +:+ String space "admin-token")).
Proof.
  apply (authenticateToken_second_field SampleAdmin.jwt_verify
           "Bearer" "Token" "admin-token" "x");
    reflexivity.
Defined.

Lemma validatePasswordStrength_append_witness :
  Password.validatePasswordStrength Sample.runtime_ToNumber
    Sample.runtime_join (fun _ => EmptyString)
    (VStr ("Abcdef1!" +:+ " and more"))
  = Normal {| Password.valid := true; Password.error := None |}.
Proof.
  apply (PasswordFacts.validatePasswordStrength_append
           Sample.runtime_ToNumber Sample.runtime_join
           (fun _ => EmptyString) "Abcdef1!" " and more").
  reflexivity.
Defined.

Lemma orders_status_keeps_allowed_witness :
  Forall status_allowed
    (orders_status SampleAdmin.parseInt "3"
       (VObj (list_to_map [("status", VStr "SHIPPING")])) true
       Sample.orders).1.
Proof.
  apply (orders_status_keeps_allowed SampleAdmin.parseInt "3"
           (VObj (list_to_map [("status", VStr "SHIPPING")])) true
           Sample.orders).
  repeat (constructor; [reflexivity|]). constructor.
Defined.

Lemma orders_status_any_transition_witness :
  let req_body := VObj (list_to_map [("status", VStr "READY")]) in
  admin_status
    (orders_status SampleAdmin.parseInt "3" req_body true Sample.orders).2
  = 200%Z
  /\ set_status (VStr "READY") (Sample.stored 3 7 "c" 300)
     ∈ (orders_status SampleAdmin.parseInt "3" req_body true Sample.orders).1.
Proof.
  intros req_body.
  apply (orders_status_any_transition SampleAdmin.parseInt "3" req_body
           Sample.orders (Sample.stored 3 7 "c" 300) "READY").
  - right. right. left.
  - reflexivity.
  - reflexivity.
  - left.
Defined.

Lemma books_delete_hides_product_witness :
  exists p,
    pg_integer (SampleAdmin.parseInt "3") = Some (Zpos p)
    /\ BOOKS_MAP_CACHE
         (books_delete SampleAdmin.parseInt "3" true true
            SampleAdmin.catalog).1 !! p = None.
Proof.
  destruct (books_delete_hides_product SampleAdmin.parseInt "3" true true
              SampleAdmin.catalog eq_refl)
    as (p & Hp & _ & _ & Hnone & _).
  exists p. split; [exact Hp|exact Hnone].
Defined.

Lemma books_delete_keeps_others_witness :
  exists p,
    pg_integer (SampleAdmin.parseInt "3") = Some (Zpos p)
    /\ forall q, q <> p ->
         BOOKS_MAP_CACHE
           (books_delete SampleAdmin.parseInt "3" true true
              SampleAdmin.catalog).1 !! q
         = BOOKS_MAP_CACHE SampleAdmin.catalog !! q.
Proof.
  apply (books_delete_keeps_others SampleAdmin.parseInt "3" true true
           SampleAdmin.catalog).
  - apply (bool_decide_unpack (NoDup (book_id <$> Sample.books))).
    vm_compute. exact I.
  - reflexivity.
  - reflexivity.
Defined.

Lemma register_keeps_unique_witness :
  NoDup (Users.email <$>
         (SampleUsers.register
            (SampleUsers.credentials "new@example.com" "Abcdef1!") true
            (SampleUsers.bcrypt_hash "Abcdef1!") (Inserted 3 1700000200)
            SampleUsers.users).1).
Proof.
  apply (UsersFacts.register_keeps_unique Sample.runtime_ToNumber
           Sample.runtime_join
           (fun _ => EmptyString) SampleUsers.isEmail SampleUsers.pg_text
           (SampleUsers.credentials "new@example.com" "Abcdef1!") true
           (SampleUsers.bcrypt_hash "Abcdef1!") (Inserted 3 1700000200)
           SampleUsers.users).
  apply (bool_decide_unpack (NoDup (Users.email <$> SampleUsers.users))).
  vm_compute. exact I.
Defined.

Lemma login_bad_credentials_witness :
  SampleUsers.login
    (SampleUsers.credentials "nobody@example.com" "Reader123!") true
    SampleUsers.users
  = Users.failure 401 Users.BadCredentials
  /\ SampleUsers.login
       (SampleUsers.credentials "reader@example.com" "Wrong123!") true
       SampleUsers.users
     = Users.failure 401 Users.BadCredentials
  /\ SampleUsers.login
       (VObj (list_to_map [("email", VStr "reader@example.com");
                           ("password", VNum 12345678)])) true
       SampleUsers.users
     = Users.failure 500 Users.ServerError.
Proof.
  split; [|split].
  - refine (proj1 (UsersFacts.login_bad_credentials SampleUsers.pg_text
                     SampleUsers.bcrypt_compare SampleUsers.jwt_sign
                     (SampleUsers.credentials "nobody@example.com"
                        "Reader123!")
                     SampleUsers.users "nobody@example.com" _ _ _) _);
      [reflexivity | reflexivity | reflexivity |].
    intros u Hu.
    repeat (apply elem_of_cons in Hu; destruct Hu as [->|Hu];
            [discriminate|]).
    inversion Hu.
  - refine (proj1 (proj2
              (UsersFacts.login_bad_credentials SampleUsers.pg_text
                 SampleUsers.bcrypt_compare SampleUsers.jwt_sign
                 (SampleUsers.credentials "reader@example.com" "Wrong123!")
                 SampleUsers.users "reader@example.com" _ _ _))
              _ [] "Wrong123!" _ _ _);
      reflexivity.
  - refine (proj2 (proj2
              (UsersFacts.login_bad_credentials SampleUsers.pg_text
                 SampleUsers.bcrypt_compare SampleUsers.jwt_sign
                 (VObj (list_to_map [("email", VStr "reader@example.com");
                                     ("password", VNum 12345678)]))
                 SampleUsers.users "reader@example.com" _ _ _))
              _ [] _ _);
      try reflexivity.
    intros secret. discriminate.
Defined.

Lemma register_then_login_witness :
  SampleUsers.login (SampleUsers.credentials "new@example.com" "Abcdef1!")
    true
    (SampleUsers.register
       (SampleUsers.credentials "new@example.com" "Abcdef1!") true
       (SampleUsers.bcrypt_hash "Abcdef1!") (Inserted 3 1700000200)
       SampleUsers.users).1
  = {| Users.http_status := 200;
       Users.body :=
         Users.LoggedIn
           (SampleUsers.jwt_sign 3 "new@example.com" "user") 3
           "new@example.com" "user" |}.
Proof.
  refine (UsersFacts.register_then_login Sample.runtime_ToNumber
            Sample.runtime_join
            (fun _ => EmptyString) SampleUsers.isEmail SampleUsers.pg_text
            SampleUsers.bcrypt_compare SampleUsers.jwt_sign
            (SampleUsers.credentials "new@example.com" "Abcdef1!") true
            (SampleUsers.bcrypt_hash "Abcdef1!") (Inserted 3 1700000200)
            SampleUsers.users 3 "new@example.com" "Abcdef1!" _ _ _);
    reflexivity.
Defined.
